(** * quilt command-line client: a shallow embedding of
      [quilt/tools/command.py] and [quilt/tools/util.py]

    The Python code is embedded function by function.  Pure helpers are
    Rocq functions; everything that touches the clock, the credential
    file, the terminal, the local package store or the network is a
    computation in a state-and-exception monad over an explicit [World].
    A raised Python exception is the [Raise] outcome; the state reached
    when the exception was raised is kept, as in Python. *)

From Stdlib Require Import ZArith String Ascii List Lia Bool.
From stdpp Require Import base option list strings pretty gmap.
Import ListNotations.

#[local] Set Warnings "-register-all".
Local Open Scope Z_scope.
Local Open Scope list_scope.
Local Open Scope string_scope.

(* ===================================================================== *)
(** ** Python strings *)
(* ===================================================================== *)

Module PyStr.

(** [c in s] for a one-character [c]. *)
Fixpoint has_char (c : ascii) (s : string) : bool :=
  match s with
  | EmptyString => false
  | String d s' => if Ascii.eqb d c then true else has_char c s'
  end.

(** [s.split(sep)] for a one-character separator: the pieces between
    consecutive separators, empty pieces included; never the empty list. *)
Fixpoint split (sep : ascii) (s : string) : list string :=
  match s with
  | EmptyString => [EmptyString]
  | String c s' =>
      if Ascii.eqb c sep then EmptyString :: split sep s'
      else match split sep s' with
           | [] => [String c EmptyString]
           | piece :: rest => String c piece :: rest
           end
  end.

(** [sep.join(pieces)]. *)
Fixpoint join (sep : ascii) (pieces : list string) : string :=
  match pieces with
  | [] => EmptyString
  | [p] => p
  | p :: rest => p ++ String sep (join sep rest)
  end.

(** [bool(s)] is false exactly for the empty string, so [not s] is
    [is_empty s]. *)
Definition is_empty (s : string) : bool :=
  match s with EmptyString => true | _ => false end.

(** [c.lower()] on the ASCII range. *)
Definition lower_char (c : ascii) : ascii :=
  let n := N_of_ascii c in
  if ((65 <=? n) && (n <=? 90))%N then ascii_of_N (n + 32) else c.

(** [s.lower()]. *)
Fixpoint lower (s : string) : string :=
  match s with
  | EmptyString => EmptyString
  | String c s' => String (lower_char c) (lower s')
  end.

End PyStr.

(* ===================================================================== *)
(** ** Python values, exceptions and outcomes *)
(* ===================================================================== *)

(** A value decoded by [json.load] / [response.json()]: [None], a bool,
    a number, a [str], a [list] or a [dict].  A [dict] is kept as its
    items; lookup takes the first item with the key. *)
Inductive json : Type :=
| JNull
| JBool (b : bool)
| JNum (n : Z)
| JStr (s : string)
| JArr (items : list json)
| JObj (fields : list (string * json)).

(** The Python values that end up in messages, URLs and headers.  A
    formatted string is kept as the format together with its arguments,
    in source order: [VFmt "error %s" [VInt 404]] is ["error %s" % 404]
    and [VFmt "{owner}/{pkg}" [VStr o; VStr p]] is
    ["{owner}/{pkg}".format(owner=o, pkg=p)]. *)
Inductive pyval : Type :=
| VJson (j : json)
| VInt (n : Z)
| VStr (s : string)
| VFmt (fmt : string) (args : list pyval).

(** The exceptions the two modules raise, catch or let through. *)
Inductive exn : Type :=
| CommandException (msg : pyval)   (* command.CommandException *)
| ConnectionError (detail : pyval) (* requests.exceptions.ConnectionError *)
| StoreException (msg : pyval)     (* store.StoreException *)
| BuildException (msg : pyval)     (* build.BuildException *)
| ValueError
| KeyError (key : string)
| TypeError
| AttributeError
| AssertionError
| EOFError
| IOError.

Inductive outcome (A : Type) : Type :=
| Ret (a : A)
| Raise (e : exn).
Arguments Ret {A} a.
Arguments Raise {A} e.

(** Sequencing of computations that may raise but touch no state. *)
Definition obind {A B} (c : outcome A) (k : A -> outcome B) : outcome B :=
  match c with
  | Ret a => k a
  | Raise e => Raise e
  end.

(** [try: c  except ValueError: h]. *)
Definition except_ValueError {A} (c : outcome A) (h : outcome A) : outcome A :=
  match c with
  | Raise ValueError => h
  | other => other
  end.

Module Py.

Fixpoint assoc {V} (k : string) (items : list (string * V)) : option V :=
  match items with
  | [] => None
  | (k', v) :: rest => if String.eqb k' k then Some v else assoc k rest
  end.

(** [d[k]]: [KeyError] on a dict without the key, [TypeError] on
    anything that is not a dict (a string key indexes neither a list
    nor a str, and the other values are not subscriptable). *)
Definition getitem (d : json) (k : string) : outcome json :=
  match d with
  | JObj fields =>
      match assoc k fields with
      | Some v => Ret v
      | None => Raise (KeyError k)
      end
  | _ => Raise TypeError
  end.

(** [d.get(k)]: [None] on a dict without the key; only a dict has
    the method. *)
Definition get (d : json) (k : string) : outcome json :=
  match d with
  | JObj fields =>
      match assoc k fields with
      | Some v => Ret v
      | None => Ret JNull
      end
  | _ => Raise AttributeError
  end.

(** The left operand of [x < <float>]: numbers compare, a bool is an
    int, every other decoded value is unorderable against a number. *)
Definition as_number (j : json) : outcome Z :=
  match j with
  | JNum n => Ret n
  | JBool b => Ret (if b then 1 else 0)
  | _ => Raise TypeError
  end.

(** [a, b = pieces]: [ValueError] unless there are exactly two. *)
Definition unpack2 {A} (pieces : list A) : outcome (A * A) :=
  match pieces with
  | [a; b] => Ret (a, b)
  | _ => Raise ValueError
  end.

End Py.

(* ===================================================================== *)
(** ** command.py: package identifiers *)
(* ===================================================================== *)

Definition parse_error : exn :=
  CommandException (VStr "Specify package as owner/package_name.").

(** [_parse_package(name)] *)
Definition _parse_package (name : string) : outcome (string * string) :=
  except_ValueError
    (obind (Py.unpack2 (PyStr.split "/" name)) (fun '(owner, pkg) =>
       if PyStr.is_empty owner || PyStr.is_empty pkg
       then Raise ValueError          (* Make sure they're not empty. *)
       else Ret (owner, pkg)))
    (Raise parse_error).

(** The identifiers the specification calls valid: [s] is [owner], one
    ['/'], then [pkg]; neither half is empty and neither holds a further
    ['/']. *)
Definition valid_package (s owner pkg : string) : Prop :=
  s = owner ++ String "/" pkg /\
  owner <> "" /\ pkg <> "" /\
  PyStr.has_char "/" owner = false /\ PyStr.has_char "/" pkg = false.

(* ===================================================================== *)
(** ** HTTP through [requests] *)
(* ===================================================================== *)

Inductive method : Type := GET | POST | PUT | DELETE.

(** What a call passes as [data=]. *)
Inductive payload : Type :=
| NoData
| Form (fields : list (string * pyval))   (* data=dict(...) *)
| Text (s : string)                        (* data=json.dumps(...) *)
| Stream (bytes : string).                 (* data=<open file> *)

Record Request : Type := mkRequest {
  req_method : method;
  req_url : pyval;
  req_data : payload;
  req_headers : list (string * pyval)
}.

(** A response as the code looks at it: the status and what
    [resp.json()] gives, [None] standing for a body that does not decode
    (the call then raises [ValueError]). *)
Record Response : Type := mkResponse {
  status_code : Z;
  body : option json
}.

(** The network either answers or cannot be reached, in which case
    [requests] raises [ConnectionError]. *)
Inductive reply : Type :=
| Answer (r : Response)
| Unreachable (detail : pyval).

Module Http.

Definition ok_code : Z := 200.            (* requests.codes.ok *)
Definition unauthorized : Z := 401.       (* requests.codes.unauthorized *)

(** [resp.ok]: [raise_for_status()] does not raise, and that raises
    for the client errors 400..499 and the server errors 500..599. *)
Definition ok (r : Response) : bool :=
  negb ((400 <=? status_code r)%Z && (status_code r <? 600)%Z).

(** [resp.json()] *)
Definition json_of (r : Response) : outcome json :=
  match body r with
  | Some j => Ret j
  | None => Raise ValueError
  end.

(** Header names compare without regard to case
    ([requests.structures.CaseInsensitiveDict]). *)
Definition same_name (a b : string) : bool :=
  String.eqb (PyStr.lower a) (PyStr.lower b).

Fixpoint hget (k : string) (h : list (string * pyval)) : option pyval :=
  match h with
  | [] => None
  | (k', v) :: rest => if same_name k' k then Some v else hget k rest
  end.

(** [h[k] = v] *)
Fixpoint hset (k : string) (v : pyval) (h : list (string * pyval))
  : list (string * pyval) :=
  match h with
  | [] => [(k, v)]
  | (k', v') :: rest =>
      if same_name k' k then (k, v) :: rest else (k', v') :: hset k v rest
  end.

(** [h.update(d)] *)
Definition hupdate (d h : list (string * pyval)) : list (string * pyval) :=
  fold_left (fun acc kv => hset (fst kv) (snd kv) acc) d h.

End Http.

(** A [requests.Session]: its headers and its response hook. *)
Record Session : Type := mkSession {
  headers : list (string * pyval);
  response_hook : option (Response -> outcome unit)
}.

(* ===================================================================== *)
(** ** The world the commands run in *)
(* ===================================================================== *)

(** The credential file [BASE_DIR/auth.json]: its text and its
    permission bits. *)
Record File : Type := mkFile {
  content : string;
  mode : Z
}.

Record World : Type := mkWorld {
  clock : Z;                         (* time.time(), in seconds *)
  base_dir : bool;                   (* os.path.exists(BASE_DIR) *)
  auth_file : option File;           (* BASE_DIR/auth.json, if it exists *)
  sent : list Request;               (* requests issued so far, oldest first *)
  stdin : list string;               (* lines still to be typed *)
  stdout : list pyval;               (* what was printed, oldest first *)
  stderr : list pyval;
  browser : list pyval;              (* pages opened by webbrowser.open *)
  store : gmap string (gmap string string)
                                     (* local packages: owner directory,
                                        then package name, to artifact *)
}.

Definition set_base_dir (b : bool) (w : World) : World :=
  mkWorld (clock w) b (auth_file w) (sent w) (stdin w) (stdout w) (stderr w)
          (browser w) (store w).
Definition set_auth_file (f : option File) (w : World) : World :=
  mkWorld (clock w) (base_dir w) f (sent w) (stdin w) (stdout w) (stderr w)
          (browser w) (store w).
Definition set_sent (l : list Request) (w : World) : World :=
  mkWorld (clock w) (base_dir w) (auth_file w) l (stdin w) (stdout w)
          (stderr w) (browser w) (store w).
Definition set_stdin (l : list string) (w : World) : World :=
  mkWorld (clock w) (base_dir w) (auth_file w) (sent w) l (stdout w)
          (stderr w) (browser w) (store w).
Definition set_stdout (l : list pyval) (w : World) : World :=
  mkWorld (clock w) (base_dir w) (auth_file w) (sent w) (stdin w) l
          (stderr w) (browser w) (store w).
Definition set_stderr (l : list pyval) (w : World) : World :=
  mkWorld (clock w) (base_dir w) (auth_file w) (sent w) (stdin w) (stdout w)
          l (browser w) (store w).
Definition set_browser (l : list pyval) (w : World) : World :=
  mkWorld (clock w) (base_dir w) (auth_file w) (sent w) (stdin w) (stdout w)
          (stderr w) l (store w).
Definition set_store (s : gmap string (gmap string string)) (w : World)
  : World :=
  mkWorld (clock w) (base_dir w) (auth_file w) (sent w) (stdin w) (stdout w)
          (stderr w) (browser w) s.

(** Computations over a state [S]: from a state to an outcome and the
    state reached.  [M] is the instance the commands run in. *)
Definition St (S A : Type) : Type := S -> outcome A * S.
Abbreviation M := (St World).

Definition ret {S A} (a : A) : St S A := fun w => (Ret a, w).
Definition raise {S A} (e : exn) : St S A := fun w => (Raise e, w).
Definition bind {S A B} (c : St S A) (k : A -> St S B) : St S B :=
  fun w => match c w with
           | (Ret a, w') => k a w'
           | (Raise e, w') => (Raise e, w')
           end.
Definition lift {S A} (o : outcome A) : St S A := fun w => (o, w).

Declare Scope py_scope.
Delimit Scope py_scope with py.
Notation "x <- c ;; k" := (bind c (fun x => k))
  (at level 100, c at next level, right associativity) : py_scope.
Notation "c ;; k" := (bind c (fun _ => k))
  (at level 100, right associativity) : py_scope.
Local Open Scope py_scope.

(** [try: c  except CommandException as ex: h(ex)]; the handler is given
    the exception's argument, which is what [str(ex)] shows. *)
Definition except_CommandException {S A} (c : St S A) (h : pyval -> St S A)
  : St S A :=
  fun w => match c w with
           | (Raise (CommandException m), w') => h m w'
           | other => other
           end.

(** [try: c  except StoreException as ex: h(ex)] *)
Definition except_StoreException {S A} (c : St S A) (h : pyval -> St S A)
  : St S A :=
  fun w => match c w with
           | (Raise (StoreException m), w') => h m w'
           | other => other
           end.

(** [try: c  except BuildException as ex: h(ex)] *)
Definition except_BuildException {S A} (c : St S A) (h : pyval -> St S A)
  : St S A :=
  fun w => match c w with
           | (Raise (BuildException m), w') => h m w'
           | other => other
           end.

(** [try: c  finally: f]; also the exit of a [with] block whose
    [__exit__] returns nothing: the outcome of [c] stands unless [f]
    itself raises. *)
Definition finally {S A} (c : St S A) (f : St S unit) : St S A :=
  fun w => match c w with
           | (r, w') => match f w' with
                        | (Ret _, w'') => (r, w'')
                        | (Raise e, w'') => (Raise e, w'')
                        end
           end.

(** [for x in xs: body(x)] *)
Fixpoint for_each {S A} (xs : list A) (body : A -> St S unit) : St S unit :=
  match xs with
  | [] => ret tt
  | x :: rest => body x ;; for_each rest body
  end.

Definition time_time : M Z := fun w => (Ret (clock w), w).

(** [print(v)] and [print(v, file=sys.stderr)] *)
Definition print (v : pyval) : M unit :=
  fun w => (Ret tt, set_stdout (stdout w ++ [v])%list w).
Definition print_err (v : pyval) : M unit :=
  fun w => (Ret tt, set_stderr (stderr w ++ [v])%list w).

(** [input(prompt)]: shows the prompt and reads one line; [EOFError]
    when there is none. *)
Definition input (prompt : string) : M string :=
  fun w =>
    let w' := set_stdout (stdout w ++ [VStr prompt])%list w in
    match stdin w' with
    | line :: rest => (Ret line, set_stdin rest w')
    | [] => (Raise EOFError, w')
    end.

(** What lies outside the two modules: the registry and the network, the
    [json] codec, the [requests] defaults, and the sibling modules
    [build] and [store] where the commands only call into them. *)
Record Env : Type := mkEnv {
  QUILT_PKG_URL : string;
      (* os.environ.get('QUILT_PKG_URL', 'https://pkg.quiltdata.com') *)
  LATEST_TAG : string;              (* const.LATEST_TAG *)
  server : list Request -> Request -> reply;
      (* the answer to a request, given the requests sent before it *)
  json_loads : string -> option json;
      (* json.load on a file's text; None when it raises ValueError *)
  json_iterencode : json -> list string;
      (* the chunks json.dump writes, in order *)
  user_agent : string;
  accept_encoding : string;
  new_file_mode : Z;
      (* permission bits open() gives a file it creates *)
  build_package : string -> string -> string -> M unit;
  local_path : string -> string -> string;
  digest : string -> string;
  store_tempfile_enter : string -> string -> M string;
  store_tempfile_exit : string -> string -> M unit;
  store_install : string -> string -> json -> json -> M unit;
  find_package_dirs : M (list string);
  ls_packages : string -> M (list (string * string));
  h5py_installed : bool;
  h5py_print_tree : string -> M unit;
      (* h5py.File(path) and the printing of its tree *)
}.

(* ===================================================================== *)
(** ** The local package store, as the commands use it *)
(* ===================================================================== *)

Inductive store_mode : Type := ModeR | ModeW.

Record PackageStore : Type := mkPackageStore {
  ps_owner : string;
  ps_pkg : string;
  ps_mode : store_mode
}.

Module Store.
Section WithEnv.
Variable E : Env.

(** The artifact stored for [owner/pkg], if any. *)
Definition artifact (owner pkg : string) (w : World) : option string :=
  match store w !! owner with
  | Some dir => dir !! pkg
  | None => None
  end.

(** Modelled from the spec: [store.get_store] is in
    [quilt/tools/store.py], which is not among the sources.  Section
    4.2: resolving a package for reading has no side effects; resolving
    it for writing may create the containing directory, and creating it
    is idempotent. *)
Definition get_store (owner pkg : string) (mode : store_mode)
  : M PackageStore :=
  fun w =>
    let w' :=
      match mode with
      | ModeR => w
      | ModeW =>
          match store w !! owner with
          | Some _ => w
          | None => set_store (<[owner := ∅]> (store w)) w
          end
      end in
    (Ret (mkPackageStore owner pkg mode), w').

(** Modelled from the spec: [PackageStore.exists], section 4.2: true
    iff a complete artifact is present at the resolved path. *)
Definition exists_ (st : PackageStore) : M bool :=
  fun w =>
    (Ret (match artifact (ps_owner st) (ps_pkg st) w with
          | Some _ => true
          | None => false
          end), w).

(** Modelled from the spec: [PackageStore.get_path], section 4.2:
    the local artifact path; fails if the artifact is absent. *)
Definition get_path (st : PackageStore) : M string :=
  fun w =>
    match artifact (ps_owner st) (ps_pkg st) w with
    | Some _ => (Ret (local_path E (ps_owner st) (ps_pkg st)), w)
    | None => (Raise (StoreException (VStr "no artifact")), w)
    end.

(** Modelled from the spec: [PackageStore.get_hash], section 4.2:
    the digest of the stored artifact; [StoreError] if there is none. *)
Definition get_hash (st : PackageStore) : M string :=
  fun w =>
    match artifact (ps_owner st) (ps_pkg st) w with
    | Some bytes => (Ret (digest E bytes), w)
    | None => (Raise (StoreException (VStr "no artifact")), w)
    end.

(** [with store.tempfile() as temp_file: body(temp_file)] *)
Definition with_tempfile {A} (st : PackageStore) (body : string -> M A)
  : M A :=
  temp_file <- store_tempfile_enter E (ps_owner st) (ps_pkg st) ;;
  finally (body temp_file)
          (store_tempfile_exit E (ps_owner st) (ps_pkg st)).

(** [store.install(url, hash)] *)
Definition install (st : PackageStore) (url hash : json) : M unit :=
  store_install E (ps_owner st) (ps_pkg st) url hash.

End WithEnv.
End Store.

(* ===================================================================== *)
(** ** command.py *)
(* ===================================================================== *)

(** The file operations [_save_auth] performs, in order.  A crash stops
    the sequence after any of them. *)
Inductive fsop : Type :=
| Makedirs                 (* os.makedirs(BASE_DIR) *)
| OpenTruncate             (* open(file_path, 'w') *)
| Chmod (bits : Z)         (* os.chmod(file_path, bits) *)
| Write (chunk : string)   (* fd.write(chunk) *)
| Close.                   (* leaving the with block *)

Module Command.
Section WithEnv.
Variable E : Env.

(** [HEADERS] is defined by the module but not used by it. *)
Definition HEADERS : list (string * pyval) :=
  [("Content-Type", VStr "application/json");
   ("Accept", VStr "application/json")].

(** [json.dumps(v)]: the chunks, joined. *)
Definition json_dumps (v : json) : string :=
  fold_right String.append "" (json_iterencode E v).

(** One HTTP exchange: the request is recorded, then the network
    answers or [requests] raises [ConnectionError]. *)
Definition request (m : method) (url : pyval) (data : payload)
           (hdrs : list (string * pyval)) : M Response :=
  fun w =>
    let req := mkRequest m url data hdrs in
    let w' := set_sent (sent w ++ [req])%list w in
    match server E (sent w) req with
    | Answer r => (Ret r, w')
    | Unreachable d => (Raise (ConnectionError d), w')
    end.

(** [_update_auth(refresh_token)] *)
Definition _update_auth (refresh_token : pyval) : M json :=
  response <- request POST (VFmt "%s/api/token" [VStr (QUILT_PKG_URL E)])
                      (Form [("refresh_token", refresh_token)]) [] ;;
  if negb (status_code response =? Http.ok_code)%Z then
    raise (CommandException
             (VFmt "Authentication error: %s" [VInt (status_code response)]))
  else
    data <- lift (Http.json_of response) ;;
    error <- lift (Py.get data "error") ;;
    match error with
    | JNull =>
        refresh_token' <- lift (Py.getitem data "refresh_token") ;;
        access_token <- lift (Py.getitem data "access_token") ;;
        expires_at <- lift (Py.getitem data "expires_at") ;;
        ret (JObj [("refresh_token", refresh_token');
                   ("access_token", access_token);
                   ("expires_at", expires_at)])
    | _ =>
        raise (CommandException (VFmt "Failed to log in: %s" [VJson error]))
    end.

(** The effect of one file operation on the credential file. *)
Definition fs_step (op : fsop) (w : World) : World :=
  match op with
  | Makedirs => set_base_dir true w
  | OpenTruncate =>
      set_auth_file
        (Some (match auth_file w with
               | Some f => mkFile "" (mode f)
               | None => mkFile "" (new_file_mode E)
               end)) w
  | Chmod bits =>
      set_auth_file
        (match auth_file w with
         | Some f => Some (mkFile (content f) bits)
         | None => None
         end) w
  | Write chunk =>
      set_auth_file
        (match auth_file w with
         | Some f => Some (mkFile (content f ++ chunk) (mode f))
         | None => None
         end) w
  | Close => w
  end.

Definition run_ops (ops : list fsop) (w : World) : World :=
  fold_left (fun acc op => fs_step op acc) ops w.

(** stat.S_IRUSR | stat.S_IWUSR *)
Definition S_IRUSR : Z := 256.
Definition S_IWUSR : Z := 128.

(** The operations of [_save_auth(auth)] started in world [w]. *)
Definition _save_auth_ops (auth : json) (w : World) : list fsop :=
  ((if base_dir w then [] else [Makedirs])
     ++ [OpenTruncate; Chmod (Z.lor S_IRUSR S_IWUSR)]
     ++ map Write (json_iterencode E auth)
     ++ [Close])%list.

(** [_save_auth(auth)], run to its end. *)
Definition _save_auth (auth : json) : M unit :=
  fun w => (Ret tt, run_ops (_save_auth_ops auth w) w).

(** [_save_auth(auth)] interrupted after its first [k] operations. *)
Definition _save_auth_crashed (k : nat) (auth : json) (w : World) : World :=
  run_ops (firstn k (_save_auth_ops auth w)) w.

(** [_handle_response(resp, **kwargs)] *)
Definition _handle_response (resp : Response) : outcome unit :=
  if (status_code resp =? Http.unauthorized)%Z then
    Raise (CommandException
             (VStr "Authentication failed. Run `quilt login` again."))
  else if negb (Http.ok resp) then
    except_ValueError
      (obind (Http.json_of resp) (fun data =>
       obind (Py.getitem data "message") (fun message =>
       Raise (CommandException (VJson message)))))
      (Raise (CommandException
                (VFmt "Unexpected failure: error %s"
                      [VInt (status_code resp)])))
  else Ret tt.

(** [requests.Session()]: the library's default headers, no hook. *)
Definition new_session : Session :=
  mkSession [("User-Agent", VStr (user_agent E));
             ("Accept-Encoding", VStr (accept_encoding E));
             ("Accept", VStr "*/*");
             ("Connection", VStr "keep-alive")]
            None.

(** [create_session()] *)
Definition create_session : M Session :=
  auth <-
    (fun w =>
       match auth_file w with
       | Some f =>
           (auth <- lift (match json_loads E (content f) with
                          | Some j => Ret j
                          | None => Raise ValueError
                          end) ;;
            (* If the access token expires within a minute, update it. *)
            expires_at <- lift (Py.getitem auth "expires_at") ;;
            now <- time_time ;;
            expires_at <- lift (Py.as_number expires_at) ;;
            if (expires_at <? now + 60)%Z then
              auth <- except_CommandException
                        (refresh_token <- lift (Py.getitem auth "refresh_token") ;;
                         _update_auth (VJson refresh_token))
                        (fun ex =>
                           raise (CommandException
                                    (VFmt "Failed to update the access token (%s). Run `quilt login` again."
                                          [ex]))) ;;
              _save_auth auth ;;
              ret (Some auth)
            else ret (Some auth)) w
       | None =>
           (* The auth file doesn't exist, probably because the
              user hasn't run quilt login yet. *)
           (Ret None, w)
       end) ;;
  let session := new_session in
  let session := mkSession (headers session) (Some _handle_response) in
  let session :=
    mkSession (Http.hupdate [("Content-Type", VStr "application/json");
                             ("Accept", VStr "application/json")]
                            (headers session))
              (response_hook session) in
  match auth with
  | Some auth =>
      access_token <- lift (Py.getitem auth "access_token") ;;
      ret (mkSession (Http.hset "Authorization"
                                (VFmt "Bearer %s" [VJson access_token])
                                (headers session))
                     (response_hook session))
  | None => ret session
  end.

(** [session.get/put/delete(url, data=...)]: the request carries the
    session's headers and the response goes through the session's hook. *)
Definition session_request (session : Session) (m : method) (url : pyval)
           (data : payload) : M Response :=
  response <- request m url data (headers session) ;;
  match response_hook session with
  | Some hook => lift (hook response) ;; ret response
  | None => ret response
  end.

(** [login()].  The juggling of file descriptor 1 around
    [webbrowser.open] restores what it changes and is left out. *)
Definition login : M unit :=
  (fun w => (Ret tt,
             set_browser
               (browser w ++ [VFmt "%s/login" [VStr (QUILT_PKG_URL E)]])%list
               w)) ;;
  refresh_token <- input "Enter the code: " ;;
  (* Get an access token (and a new refresh token). *)
  auth <- _update_auth (VStr refresh_token) ;;
  _save_auth auth.

(** [logout()] *)
Definition logout : M unit :=
  fun w =>
    match auth_file w with
    | Some _ => (Ret tt, set_auth_file None w)
    | None => print (VStr "Already logged out.") w
    end.

(** [build(package, path)] *)
Definition build (package path : string) : M unit :=
  p <- lift (_parse_package package) ;;
  let '(owner, pkg) := p in
  except_BuildException
    (build_package E owner pkg path ;;
     print (VFmt "Built %s/%s successfully." [VStr owner; VStr pkg]))
    (fun ex =>
       raise (CommandException
                (VFmt "Failed to build the package: %s" [ex]))).

Definition package_not_found (owner pkg : string) : exn :=
  CommandException
    (VFmt "Package {owner}/{pkg} not found." [VStr owner; VStr pkg]).

(** [assert path] *)
Definition assert_path (path : string) : M unit :=
  if PyStr.is_empty path then raise AssertionError else ret tt.

(** [push(session, package)] *)
Definition push (session : Session) (package : string) : M unit :=
  p <- lift (_parse_package package) ;;
  let '(owner, pkg) := p in
  store <- Store.get_store owner pkg ModeR ;;
  found <- Store.exists_ store ;;
  if negb found then raise (package_not_found owner pkg)
  else
    path <- Store.get_path E store ;;
    pkghash <- Store.get_hash E store ;;
    assert_path path ;;
    response <-
      session_request session PUT
        (VFmt "{url}/api/package/{owner}/{pkg}/{hash}"
              [VStr (QUILT_PKG_URL E); VStr owner; VStr pkg; VStr pkghash])
        (Text (json_dumps (JObj [("description", JStr "")]))) ;;
    dataset <- lift (Http.json_of response) ;;
    upload_url <- lift (Py.getitem dataset "upload_url") ;;
    (* Create a temporary gzip'ed file. *)
    Store.with_tempfile E store (fun temp_file =>
      response <- request PUT (VJson upload_url) (Stream temp_file)
                          [("Content-Encoding", VStr "gzip")] ;;
      if negb (Http.ok response) then
        raise (CommandException
                 (VFmt "Upload failed: error %s"
                       [VInt (status_code response)]))
      else ret tt) ;;
    (* Set the "latest" tag. *)
    session_request session PUT
      (VFmt "{url}/api/tag/{owner}/{pkg}/{tag}"
            [VStr (QUILT_PKG_URL E); VStr owner; VStr pkg;
             VStr (LATEST_TAG E)])
      (Text (json_dumps (JObj [("hash", JStr pkghash)]))) ;;
    ret tt.

(** [install(session, package)], from the request for the "latest"
    tag onwards. *)
Definition install_download (session : Session) (owner pkg : string)
           (store : PackageStore) : M unit :=
  (* Get the "latest" tag. *)
  response <-
    session_request session GET
      (VFmt "{url}/api/tag/{owner}/{pkg}/{tag}"
            [VStr (QUILT_PKG_URL E); VStr owner; VStr pkg;
             VStr (LATEST_TAG E)])
      NoData ;;
  tag <- lift (Http.json_of response) ;;
  pkghash <- lift (Py.getitem tag "hash") ;;
  response <-
    session_request session GET
      (VFmt "{url}/api/package/{owner}/{pkg}/{hash}"
            [VStr (QUILT_PKG_URL E); VStr owner; VStr pkg; VJson pkghash])
      NoData ;;
  dataset <- lift (Http.json_of response) ;;
  except_StoreException
    (url <- lift (Py.getitem dataset "url") ;;
     hash <- lift (Py.getitem dataset "hash") ;;
     Store.install E store url hash)
    (fun ex =>
       raise (CommandException
                (VFmt "Failed to install the package: %s" [ex]))).

(** [install(session, package)] *)
Definition install (session : Session) (package : string) : M unit :=
  p <- lift (_parse_package package) ;;
  let '(owner, pkg) := p in
  store <- Store.get_store owner pkg ModeW ;;
  found <- Store.exists_ store ;;
  if found then
    print (VFmt "{owner}/{pkg} already installed." [VStr owner; VStr pkg]) ;;
    overwrite <- input "Overwrite y/n? " ;;
    if negb (String.eqb (PyStr.lower overwrite) "y") then ret tt
    else install_download session owner pkg store
  else install_download session owner pkg store.

(** ['\n'.join(users)]: a list of strings is joined; a string is
    joined character by character and a dict by its keys; anything
    else is a [TypeError]. *)
Fixpoint all_strings (items : list json) : outcome (list string) :=
  match items with
  | [] => Ret []
  | JStr s :: rest => obind (all_strings rest) (fun l => Ret (s :: l))
  | _ :: _ => Raise TypeError
  end.

Definition join_lines (users : json) : outcome string :=
  match users with
  | JArr items =>
      obind (all_strings items) (fun l => Ret (PyStr.join "010" l))
  | JStr s =>
      Ret (PyStr.join "010"
             (map (fun c => String c EmptyString) (list_ascii_of_string s)))
  | JObj fields => Ret (PyStr.join "010" (map fst fields))
  | _ => Raise TypeError
  end.

(** [access_list(session, package)] *)
Definition access_list (session : Session) (package : string) : M unit :=
  p <- lift (_parse_package package) ;;
  let '(owner, pkg) := p in
  let lookup_url :=
    VFmt "{url}/api/access/{owner}/{pkg}"
         [VStr (QUILT_PKG_URL E); VStr owner; VStr pkg] in
  response <- session_request session GET lookup_url NoData ;;
  data <- lift (Http.json_of response) ;;
  users <- lift (Py.getitem data "users") ;;
  text <- lift (join_lines users) ;;
  print (VStr text).

(** [access_add(session, package, user)] *)
Definition access_add (session : Session) (package user : string)
  : M unit :=
  p <- lift (_parse_package package) ;;
  let '(owner, pkg) := p in
  session_request session PUT
    (VFmt "%s/api/access/%s/%s/%s"
          [VStr (QUILT_PKG_URL E); VStr owner; VStr pkg; VStr user])
    NoData ;;
  ret tt.

(** [access_remove(session, package, user)] *)
Definition access_remove (session : Session) (package user : string)
  : M unit :=
  p <- lift (_parse_package package) ;;
  let '(owner, pkg) := p in
  session_request session DELETE
    (VFmt "%s/api/access/%s/%s/%s"
          [VStr (QUILT_PKG_URL E); VStr owner; VStr pkg; VStr user])
    NoData ;;
  ret tt.

(** [enumerate(xs)] *)
Fixpoint enumerate_from {A} (i : nat) (xs : list A) : list (nat * A) :=
  match xs with
  | [] => []
  | x :: rest => (i, x) :: enumerate_from (S i) rest
  end.

(** [ls()] *)
Definition ls : M unit :=
  dirs <- find_package_dirs E ;;
  for_each dirs (fun pkg_dir =>
    print (VFmt "%s" [VStr pkg_dir]) ;;
    packages <- ls_packages E pkg_dir ;;
    for_each (enumerate_from 0 packages) (fun entry =>
      let '(idx, (owner, pkg)) := entry in
      let prefix :=
        if (Z.of_nat idx =? Z.of_nat (length packages) - 1)%Z
        then "└── " else "├── " in
      print (VFmt "%s%s/%s" [VStr prefix; VStr owner; VStr pkg]))).

(** [inspect(package)]; opening the file with [h5py] and printing its
    tree is left to the environment. *)
Definition inspect (package : string) : M unit :=
  (if h5py_installed E then ret tt
   else raise (CommandException
                 (VStr "Please install 'h5py' to use 'quilt inspect'"))) ;;
  p <- lift (_parse_package package) ;;
  let '(owner, pkg) := p in
  store <- Store.get_store owner pkg ModeR ;;
  found <- Store.exists_ store ;;
  if negb found then raise (package_not_found owner pkg)
  else
    path <- Store.get_path E store ;;
    assert_path path ;;
    h5py_print_tree E path.

(** The command line after [parser.parse_args()]. *)
Inductive command : Type :=
| CmdLogin
| CmdLogout
| CmdBuild (package path : string)
| CmdPush (package : string)
| CmdInstall (package : string)
| CmdAccessList (package : string)
| CmdAccessAdd (package user : string)
| CmdAccessRemove (package user : string)
| CmdLs
| CmdInspect (package : string).

(** [need_session]: true by default, false where the sub-parser says so. *)
Definition need_session (c : command) : bool :=
  match c with
  | CmdLogin | CmdLogout | CmdBuild _ _ | CmdLs | CmdInspect _ => false
  | CmdPush _ | CmdInstall _ | CmdAccessList _ | CmdAccessAdd _ _
  | CmdAccessRemove _ _ => true
  end.

(** [func] on [kwargs]: the function the sub-parser names, applied to
    the parsed arguments and, when one was created, the session.  A
    function that takes a session and is given none is a [TypeError]. *)
Definition func (c : command) (session : option Session) : M unit :=
  match c, session with
  | CmdLogin, None => login
  | CmdLogout, None => logout
  | CmdBuild package path, None => build package path
  | CmdLs, None => ls
  | CmdInspect package, None => inspect package
  | CmdPush package, Some s => push s package
  | CmdInstall package, Some s => install s package
  | CmdAccessList package, Some s => access_list s package
  | CmdAccessAdd package user, Some s => access_add s package user
  | CmdAccessRemove package user, Some s => access_remove s package user
  | _, _ => raise TypeError
  end.

(** What [main] hands back: an int, or nothing at all ([None]) when
    control runs off its end. *)
Inductive returned : Type :=
| ReturnInt (n : Z)
| ReturnNone.

(** The body of the [try] in [main()]. *)
Definition main_try (c : command) : M unit :=
  (* Create a session if needed. *)
  session <- (if need_session c
              then s <- create_session ;; ret (Some s)
              else ret None) ;;
  func c session.

(** [main()], from the [try] on. *)
Definition main (c : command) : M returned :=
  fun w =>
    match main_try c w with
    | (Ret _, w') => (Ret (ReturnInt 0), w')
    | (Raise (CommandException ex), w') =>
        (print_err ex ;; ret (ReturnInt 1)) w'
    | (Raise (ConnectionError ex), w') =>
        (print_err (VFmt "Failed to connect: %s" [ex]) ;; ret ReturnNone) w'
    | (Raise e, w') => (Raise e, w')
    end.

(** The status of the process when [main]'s result is passed to
    [sys.exit], as a console entry point does: an int is the status,
    [None] is status zero. *)
Definition exit_status (r : returned) : Z :=
  match r with
  | ReturnInt n => n
  | ReturnNone => 0
  end.

End WithEnv.
End Command.

(* ===================================================================== *)
(** ** util.py: [FileWithReadProgress] *)
(* ===================================================================== *)

Module Util.

(** An open file object: its bytes and the read position. *)
Record OpenFile : Type := mkOpenFile {
  data : string;
  pos : nat
}.

(** A live [tqdm] progress bar. *)
Record Bar : Type := mkBar {
  total : nat;
  progressed : nat
}.

(** Files on disk, and the file objects and progress bars that are
    open.  Objects are named by identities that are never reused;
    closing one removes it from its table. *)
Record IO : Type := mkIO {
  disk : gmap string string;
  next_id : nat;
  open_files : gmap nat OpenFile;
  open_bars : gmap nat Bar
}.

Definition is_open (fd : nat) (io : IO) : bool :=
  match open_files io !! fd with Some _ => true | None => false end.

Definition bar_is_open (bar : nat) (io : IO) : bool :=
  match open_bars io !! bar with Some _ => true | None => false end.

(** [open(path, 'rb')] *)
Definition open_rb (path : string) : St IO nat :=
  fun io =>
    match disk io !! path with
    | Some bytes =>
        let fd := next_id io in
        (Ret fd,
         mkIO (disk io) (S fd)
              (<[fd := mkOpenFile bytes 0]> (open_files io)) (open_bars io))
    | None => (Raise IOError, io)
    end.

(** Any operation on a closed file object raises [ValueError]. *)
Definition on_file {A} (fd : nat) (k : OpenFile -> IO -> outcome A * IO)
  : St IO A :=
  fun io =>
    match open_files io !! fd with
    | Some f => k f io
    | None => (Raise ValueError, io)
    end.

Definition set_pos (fd : nat) (f : OpenFile) (p : nat) (io : IO) : IO :=
  mkIO (disk io) (next_id io)
       (<[fd := mkOpenFile (data f) p]> (open_files io)) (open_bars io).

(** [fd.seek(offset, whence)] for the two uses in the class and the
    pass-through: whence 0 is from the start, 2 from the end.  A
    position before the start is an error. *)
Definition fd_seek (fd : nat) (offset : Z) (whence : Z) : St IO unit :=
  on_file fd (fun f io =>
    let base := if (whence =? 2)%Z then Z.of_nat (String.length (data f))
                else 0%Z in
    if (base + offset <? 0)%Z then (Raise IOError, io)
    else (Ret tt, set_pos fd f (Z.to_nat (base + offset)) io)).

(** [fd.tell()] *)
Definition fd_tell (fd : nat) : St IO nat :=
  on_file fd (fun f io => (Ret (pos f), io)).

(** [fd.read(size)]: everything that is left when [size] is negative,
    at most [size] bytes otherwise. *)
Definition fd_read (fd : nat) (size : Z) : St IO string :=
  on_file fd (fun f io =>
    let left := (String.length (data f) - pos f)%nat in
    let n := if (size <? 0)%Z then left else Nat.min (Z.to_nat size) left in
    (Ret (String.substring (pos f) n (data f)),
     set_pos fd f (pos f + n)%nat io)).

(** [fd.close()]; closing twice is allowed. *)
Definition fd_close (fd : nat) : St IO unit :=
  fun io =>
    (Ret tt,
     mkIO (disk io) (next_id io) (delete fd (open_files io)) (open_bars io)).

(** [tqdm(total=size, unit='B', unit_scale=True)] *)
Definition tqdm (size : nat) : St IO nat :=
  fun io =>
    let bar := next_id io in
    (Ret bar,
     mkIO (disk io) (S bar) (open_files io)
          (<[bar := mkBar size 0]> (open_bars io))).

(** [progress.update(n)] *)
Definition tqdm_update (bar : nat) (n : nat) : St IO unit :=
  fun io =>
    (Ret tt,
     mkIO (disk io) (next_id io) (open_files io)
          (alter (fun b => mkBar (total b) (progressed b + n)) bar
                 (open_bars io))).

(** [progress.close()]; closing twice is allowed. *)
Definition tqdm_close (bar : nat) : St IO unit :=
  fun io =>
    (Ret tt,
     mkIO (disk io) (next_id io) (open_files io) (delete bar (open_bars io))).

Record FileWithReadProgress : Type := mkFileWithReadProgress {
  _fd : nat;
  _need_to_close : bool;
  _progress : nat
}.

(** [FileWithReadProgress.__init__(self, path_or_fd)]: a string is a
    path to open, anything else is taken to be an open file object. *)
Definition __init__ (path_or_fd : string + nat) : St IO FileWithReadProgress :=
  opened <- match path_or_fd with
            | inl path => fd <- open_rb path ;; ret (fd, true)
            | inr fd => ret (fd, false)
            end ;;
  let '(fd, need_to_close) := opened in
  fd_seek fd 0 2 ;;
  size <- fd_tell fd ;;
  fd_seek fd 0 0 ;;
  progress <- tqdm size ;;
  ret (mkFileWithReadProgress fd need_to_close progress).

(** [read(self, size=-1)] *)
Definition read (self : FileWithReadProgress) (size : Z) : St IO string :=
  buf <- fd_read (_fd self) size ;;
  tqdm_update (_progress self) (String.length buf) ;;
  ret buf.

(** [tell(self)] *)
Definition tell (self : FileWithReadProgress) : St IO nat :=
  fd_tell (_fd self).

(** [seek(self, offset, whence=0)] *)
Definition seek (self : FileWithReadProgress) (offset whence : Z)
  : St IO unit :=
  fd_seek (_fd self) offset whence.

(** [close(self)] *)
Definition close (self : FileWithReadProgress) : St IO unit :=
  tqdm_close (_progress self) ;;
  if _need_to_close self then fd_close (_fd self) else ret tt.

(** [__enter__(self)] *)
Definition __enter__ (self : FileWithReadProgress)
  : St IO FileWithReadProgress :=
  ret self.

(** [__exit__(self, exc_type, value, traceback)]; it returns nothing,
    so an exception of the block is not swallowed. *)
Definition __exit__ (self : FileWithReadProgress) : St IO unit :=
  close self.

(** [with FileWithReadProgress(path_or_fd) as f: body(f)] *)
Definition with_FileWithReadProgress {A} (path_or_fd : string + nat)
           (body : FileWithReadProgress -> St IO A) : St IO A :=
  manager <- __init__ path_or_fd ;;
  f <- __enter__ manager ;;
  finally (body f) (__exit__ manager).



End Util.

(* ===================================================================== *)
(** ** A concrete environment for running the model *)
(* ===================================================================== *)

Module Demo.

Definition quote : string := String "034" "".

(** The text of a credential record as [json.dump] writes it, in the
    chunks of the encoder; other values are not needed here. *)
Definition iterencode (v : json) : list string :=
  match v with
  | JObj [(k1, JStr v1); (k2, JStr v2); (k3, JNum v3)] =>
      ["{"; (quote ++ k1 ++ quote); ": "; (quote ++ v1 ++ quote); ", ";
       (quote ++ k2 ++ quote); ": "; (quote ++ v2 ++ quote); ", ";
       (quote ++ k3 ++ quote); ": "; pretty v3; "}"]
  | _ => ["null"]
  end.

Definition dumps (v : json) : string :=
  fold_right String.append "" (iterencode v).

Definition record (refresh access : string) (expires : Z) : json :=
  JObj [("refresh_token", JStr refresh); ("access_token", JStr access);
        ("expires_at", JNum expires)].

(** A record that expires 30 seconds after the demo clock, one that is
    good for another hour, and the one a refresh hands out. *)
Definition stale : json := record "r0" "a0" 1030.
Definition fresh : json := record "r0" "a0" 4600.
Definition renewed : json := record "r1" "a1" 4630.

(** Decoding recognises the texts of these records. *)
Definition loads (text : string) : option json :=
  List.find (fun v => String.eqb (dumps v) text) [stale; fresh; renewed].

Definition env (srv : list Request -> Request -> reply) : Env :=
  {| QUILT_PKG_URL := "https://pkg.quiltdata.com";
     LATEST_TAG := "latest";
     server := srv;
     json_loads := loads;
     json_iterencode := iterencode;
     user_agent := "python-requests";
     accept_encoding := "gzip, deflate";
     new_file_mode := 420;
     build_package := fun _ _ _ => ret tt;
     local_path := fun owner pkg => owner ++ "/" ++ pkg;
     digest := fun bytes => bytes;
     store_tempfile_enter := fun _ _ => ret "";
     store_tempfile_exit := fun _ _ => ret tt;
     store_install := fun _ _ _ _ => ret tt;
     find_package_dirs := ret [];
     ls_packages := fun _ => ret [];
     h5py_installed := true;
     h5py_print_tree := fun _ => ret tt |}.

(** The registry cannot be reached. *)
Definition down : list Request -> Request -> reply :=
  fun _ _ => Unreachable (VStr "connection refused").

(** The registry answers every request the same way. *)
Definition always (r : Response) : list Request -> Request -> reply :=
  fun _ _ => Answer r.

Definition world (file : option File) (typed : list string)
           (packages : gmap string (gmap string string)) : World :=
  {| clock := 1000; base_dir := true; auth_file := file; sent := [];
     stdin := typed; stdout := []; stderr := []; browser := [];
     store := packages |}.

Definition file_of (v : json) : File := mkFile (dumps v) 384.

Definition widget_installed : gmap string (gmap string string) :=
  {[ "acme" := {[ "widget" := "artifact bytes" ]} ]}.

(** An environment whose store lists one directory with two packages
    and whose build refuses every manifest. *)
Definition listing_env : Env :=
  {| QUILT_PKG_URL := "https://pkg.quiltdata.com";
     LATEST_TAG := "latest";
     server := down;
     json_loads := loads;
     json_iterencode := iterencode;
     user_agent := "python-requests";
     accept_encoding := "gzip, deflate";
     new_file_mode := 420;
     build_package :=
       fun _ _ _ => raise (BuildException (VStr "bad manifest"));
     local_path := fun owner pkg => owner ++ "/" ++ pkg;
     digest := fun bytes => bytes;
     store_tempfile_enter := fun _ _ => ret "";
     store_tempfile_exit := fun _ _ => ret tt;
     store_install := fun _ _ _ _ => ret tt;
     find_package_dirs := ret ["quilt_packages"];
     ls_packages := fun _ => ret [("acme", "gadget"); ("acme", "widget")];
     h5py_installed := true;
     h5py_print_tree := fun _ => ret tt |}.

End Demo.

(* ===================================================================== *)
(** ** Vocabulary of the properties *)
(* ===================================================================== *)

Definition relogin_error : exn :=
  CommandException (VStr "Authentication failed. Run `quilt login` again.").

Definition unexpected_failure (status : Z) : exn :=
  CommandException (VFmt "Unexpected failure: error %s" [VInt status]).

(** The refresh call: one POST of the refresh token to the token
    endpoint. *)
Definition token_request (E : Env) (refresh_token : pyval) : Request :=
  mkRequest POST (VFmt "%s/api/token" [VStr (QUILT_PKG_URL E)])
            (Form [("refresh_token", refresh_token)]) [].

(** The credential file holds a record with these three fields. *)
Definition stored_record (E : Env) (w : World)
           (refresh_token access_token : json) (expires_at : Z) : Prop :=
  exists f fields,
    auth_file w = Some f /\
    json_loads E (content f) = Some (JObj fields) /\
    Py.assoc "refresh_token" fields = Some refresh_token /\
    Py.assoc "access_token" fields = Some access_token /\
    Py.assoc "expires_at" fields = Some (JNum expires_at).

(** The token endpoint refuses: a status other than 200, or a body whose
    [error] field is set. *)
Definition refresh_fails (r : Response) : Prop :=
  status_code r <> Http.ok_code \/
  exists data error,
    body r = Some data /\ Py.get data "error" = Ret error /\ error <> JNull.

Definition refresh_failed (reason : pyval) : exn :=
  CommandException
    (VFmt "Failed to update the access token (%s). Run `quilt login` again."
          [reason]).

(** The headers of a session opened without credentials. *)
Definition anonymous_headers (E : Env) : list (string * pyval) :=
  [("User-Agent", VStr (user_agent E));
   ("Accept-Encoding", VStr (accept_encoding E));
   ("Accept", VStr "application/json");
   ("Connection", VStr "keep-alive");
   ("Content-Type", VStr "application/json")].

(** What an atomic replacement would guarantee: however early the write
    is interrupted, the credential file is the old one or the new one. *)
Definition atomic_write (E : Env) (auth : json) (w : World) : Prop :=
  forall k,
    auth_file (Command._save_auth_crashed E k auth w) = auth_file w \/
    auth_file (Command._save_auth_crashed E k auth w)
    = auth_file (snd (Command._save_auth E auth w)).

(** The record [_update_auth] builds from the token endpoint's answer. *)
Definition credential (refresh_token access_token expires_at : json) : json :=
  JObj [("refresh_token", refresh_token); ("access_token", access_token);
        ("expires_at", expires_at)].

(** The token endpoint grants: status 200 and a body that is an object
    with the three fields and no [error], or an [error] of [null]. *)
Definition grants (r : Response) (refresh_token access_token expires_at : json)
  : Prop :=
  status_code r = Http.ok_code /\
  exists fields,
    body r = Some (JObj fields) /\
    (Py.assoc "error" fields = None \/ Py.assoc "error" fields = Some JNull) /\
    Py.assoc "refresh_token" fields = Some refresh_token /\
    Py.assoc "access_token" fields = Some access_token /\
    Py.assoc "expires_at" fields = Some expires_at.

(** The commands that take a package identifier, and the identifier. *)
Definition package_of (c : Command.command) : option string :=
  match c with
  | Command.CmdBuild package _ | Command.CmdPush package
  | Command.CmdInstall package | Command.CmdAccessList package
  | Command.CmdAccessAdd package _ | Command.CmdAccessRemove package _
  | Command.CmdInspect package => Some package
  | Command.CmdLogin | Command.CmdLogout | Command.CmdLs => None
  end.

(** The lines [ls] prints for one directory: the directory, then one
    line per package, the last one drawn as the end of the branch. *)
Fixpoint package_lines (packages : list (string * string)) : list pyval :=
  match packages with
  | [] => []
  | [(owner, pkg)] => [VFmt "%s%s/%s" [VStr "└── "; VStr owner; VStr pkg]]
  | (owner, pkg) :: rest =>
      VFmt "%s%s/%s" [VStr "├── "; VStr owner; VStr pkg] :: package_lines rest
  end.

(** The request [access_list] sends. *)
Definition access_list_request (E : Env) (session : Session)
           (owner pkg : string) : Request :=
  mkRequest GET
            (VFmt "{url}/api/access/{owner}/{pkg}"
                  [VStr (QUILT_PKG_URL E); VStr owner; VStr pkg])
            NoData (headers session).

(** The request [access_add] (with [PUT]) and [access_remove] (with
    [DELETE]) send. *)
Definition access_user_request (E : Env) (session : Session) (m : method)
           (owner pkg user : string) : Request :=
  mkRequest m
            (VFmt "%s/api/access/%s/%s/%s"
                  [VStr (QUILT_PKG_URL E); VStr owner; VStr pkg; VStr user])
            NoData (headers session).

(** The two requests [install] sends before it hands over to the store:
    for the "latest" tag, and for the package with the hash the tag
    answer named. *)
Definition tag_request (E : Env) (session : Session) (owner pkg : string)
  : Request :=
  mkRequest GET
            (VFmt "{url}/api/tag/{owner}/{pkg}/{tag}"
                  [VStr (QUILT_PKG_URL E); VStr owner; VStr pkg;
                   VStr (LATEST_TAG E)])
            NoData (headers session).

Definition package_request (E : Env) (session : Session) (owner pkg : string)
           (pkghash : json) : Request :=
  mkRequest GET
            (VFmt "{url}/api/package/{owner}/{pkg}/{hash}"
                  [VStr (QUILT_PKG_URL E); VStr owner; VStr pkg; VJson pkghash])
            NoData (headers session).

(* ===================================================================== *)
(** * Properties *)
(* ===================================================================== *)

(** ** Splitting and joining *)

Module PyStrFacts.

Lemma split_not_nil sep s : PyStr.split sep s <> [].
Proof.
  destruct s as [|c s]; simpl; [discriminate|].
  destruct (Ascii.eqb c sep); [discriminate|].
  destruct (PyStr.split sep s); discriminate.
Qed.

Lemma split_no_sep sep s : PyStr.has_char sep s = false -> PyStr.split sep s = [s].
Proof.
  induction s as [|c s IH]; simpl; [reflexivity|].
  destruct (Ascii.eqb c sep); [discriminate|].
  intros H. rewrite (IH H). reflexivity.
Qed.

Lemma split_app_sep sep a b :
  PyStr.has_char sep a = false ->
  PyStr.split sep (a ++ String sep b) = a :: PyStr.split sep b.
Proof.
  induction a as [|c a IH]; simpl.
  - intros _. rewrite Ascii.eqb_refl. reflexivity.
  - destruct (Ascii.eqb c sep); [discriminate|].
    intros H. rewrite (IH H). reflexivity.
Qed.

Lemma split_pieces_sep_free sep s :
  Forall (fun p => PyStr.has_char sep p = false) (PyStr.split sep s).
Proof.
  induction s as [|c s IH]; simpl.
  - constructor; [reflexivity|constructor].
  - destruct (Ascii.eqb c sep) eqn:E.
    + constructor; [reflexivity|exact IH].
    + destruct (PyStr.split sep s) as [|p rest]; simpl.
      * constructor; [simpl; rewrite E; reflexivity|constructor].
      * inversion IH; subst. constructor; [simpl; rewrite E|]; assumption.
Qed.

Lemma join_split sep s : PyStr.join sep (PyStr.split sep s) = s.
Proof.
  induction s as [|c s IH]; simpl; [reflexivity|].
  destruct (Ascii.eqb c sep) eqn:E.
  - apply Ascii.eqb_eq in E. subst c.
    pose proof (split_not_nil sep s) as Hne.
    destruct (PyStr.split sep s) as [|p rest]; [congruence|].
    simpl in *. rewrite IH. reflexivity.
  - pose proof (split_not_nil sep s) as Hne.
    destruct (PyStr.split sep s) as [|p rest]; [congruence|].
    destruct rest as [|q rest]; simpl in *; rewrite <- IH; reflexivity.
Qed.

Lemma is_empty_true s : PyStr.is_empty s = true <-> s = EmptyString.
Proof. destruct s; simpl; split; congruence. Qed.

Lemma is_empty_false s : PyStr.is_empty s = false <-> s <> EmptyString.
Proof. destruct s; simpl; split; congruence. Qed.

End PyStrFacts.

(** ** Package identifiers *)

Example parse_acme_widget :
  _parse_package "acme/widget" = Ret ("acme", "widget").
Proof. reflexivity. Qed.

Example parse_rejects :
  map _parse_package ["acme"; "/widget"; "acme/"; "a/b/c"; ""; "/"]
  = repeat (Raise parse_error) 6.
Proof. reflexivity. Qed.

Lemma parse_package_cases name :
  match PyStr.split "/" name with
  | [owner; pkg] =>
      if PyStr.is_empty owner || PyStr.is_empty pkg
      then _parse_package name = Raise parse_error
      else _parse_package name = Ret (owner, pkg)
  | _ => _parse_package name = Raise parse_error
  end.
Proof.
  unfold _parse_package.
  destruct (PyStr.split "/" name) as [|a [|b [|c l]]]; simpl; try reflexivity.
  destruct (PyStr.is_empty a || PyStr.is_empty b); reflexivity.
Qed.

Lemma parse_package_valid s owner pkg :
  valid_package s owner pkg -> _parse_package s = Ret (owner, pkg).
Proof.
  intros (-> & Ho & Hp & Hso & Hsp).
  pose proof (parse_package_cases (owner ++ String "/" pkg)) as H.
  rewrite (PyStrFacts.split_app_sep _ _ _ Hso), (PyStrFacts.split_no_sep _ _ Hsp) in H.
  apply PyStrFacts.is_empty_false in Ho, Hp. rewrite Ho, Hp in H. exact H.
Qed.

Lemma parse_package_inv s owner pkg :
  _parse_package s = Ret (owner, pkg) -> valid_package s owner pkg.
Proof.
  intros H.
  pose proof (parse_package_cases s) as Hc.
  pose proof (PyStrFacts.join_split "/" s) as Hj.
  pose proof (PyStrFacts.split_pieces_sep_free "/" s) as Hf.
  destruct (PyStr.split "/" s) as [|a [|b [|c l]]];
    try (rewrite Hc in H; discriminate).
  destruct (PyStr.is_empty a || PyStr.is_empty b) eqn:E;
    rewrite Hc in H; [discriminate|].
  injection H as <- <-.
  apply orb_false_iff in E as [Ea Eb].
  apply PyStrFacts.is_empty_false in Ea, Eb.
  pose proof (Forall_inv Hf) as Hfa.
  pose proof (Forall_inv (Forall_inv_tail Hf)) as Hfb.
  simpl in Hj, Hfa, Hfb. repeat split; auto.
Qed.

Lemma parse_package_total s :
  (exists owner pkg, _parse_package s = Ret (owner, pkg)) \/
  _parse_package s = Raise parse_error.
Proof.
  pose proof (parse_package_cases s) as Hc.
  destruct (PyStr.split "/" s) as [|a [|b [|c l]]]; auto.
  destruct (PyStr.is_empty a || PyStr.is_empty b); eauto.
Qed.

(** C1.  [_parse_package] on a valid ["owner/name"] string (exactly one
    ['/'], both halves non-empty) returns [(owner, name)]; whatever pair
    it returns rejoins with ['/'] to the string it was given; and on every
    string that is not of that form (no ['/'], more than one, or an empty
    half) it raises the package-syntax [CommandException]. *)
Theorem parse_package_spec (s : string) :
  (forall owner pkg, valid_package s owner pkg ->
     _parse_package s = Ret (owner, pkg)) /\
  (forall owner pkg, _parse_package s = Ret (owner, pkg) ->
     PyStr.join "/" [owner; pkg] = s) /\
  ((~ exists owner pkg, valid_package s owner pkg) ->
     _parse_package s = Raise parse_error).
Proof.
  split; [|split].
  - intros owner pkg. apply parse_package_valid.
  - intros owner pkg H. apply parse_package_inv in H as (-> & _). reflexivity.
  - intros Hn. destruct (parse_package_total s) as [(o & p & H)|H]; [|exact H].
    exfalso. apply Hn. exists o, p. apply parse_package_inv, H.
Qed.

Lemma parse_package_spec_witness :
  _parse_package "acme/widget" = Ret ("acme", "widget") /\
  PyStr.join "/" ["acme"; "widget"] = "acme/widget" /\
  _parse_package "acme" = Raise parse_error.
Proof.
  split; [|split].
  - apply (proj1 (parse_package_spec "acme/widget")).
    repeat split; discriminate.
  - apply (proj1 (proj2 (parse_package_spec "acme/widget"))).
    reflexivity.
  - apply (proj2 (proj2 (parse_package_spec "acme"))).
    intros (o & p & H & _). revert H.
    destruct o as [|c1 [|c2 [|c3 [|c4 [|c5 o]]]]]; simpl; intros H;
      try discriminate; injection H; intros; subst; discriminate.
Defined.

(** ** The response hook *)

Example handle_response_runs :
  map Command._handle_response
      [mkResponse 200 None;
       mkResponse 401 (Some (JObj [("message", JStr "no")]));
       mkResponse 404 (Some (JObj [("message", JStr "no such package")]));
       mkResponse 502 None]
  = [Ret tt;
     Raise relogin_error;
     Raise (CommandException (VJson (JStr "no such package")));
     Raise (unexpected_failure 502)].
Proof. reflexivity. Qed.

(** A decodable error body without a [message] field: the [KeyError]
    is not a [ValueError] and leaves the hook as it is. *)
Example handle_response_without_message :
  Command._handle_response (mkResponse 500 (Some (JObj [])))
  = Raise (KeyError "message").
Proof. reflexivity. Qed.

Lemma http_ok_iff r :
  Http.ok r = true <-> (status_code r < 400 \/ 600 <= status_code r)%Z.
Proof.
  unfold Http.ok. rewrite negb_true_iff, andb_false_iff, Z.leb_gt, Z.ltb_ge.
  reflexivity.
Qed.

Lemma handle_response_ok r :
  status_code r <> 401%Z -> Http.ok r = true ->
  Command._handle_response r = Ret tt.
Proof.
  intros Hs Hok. unfold Command._handle_response, Http.unauthorized.
  apply Z.eqb_neq in Hs. rewrite Hs, Hok. reflexivity.
Qed.

Lemma handle_response_error r :
  status_code r <> 401%Z -> Http.ok r = false ->
  Command._handle_response r =
  match body r with
  | None => Raise (unexpected_failure (status_code r))
  | Some data =>
      match Py.getitem data "message" with
      | Ret message => Raise (CommandException (VJson message))
      | Raise ValueError => Raise (unexpected_failure (status_code r))
      | Raise e => Raise e
      end
  end.
Proof.
  intros Hs Hok. unfold Command._handle_response, Http.unauthorized.
  apply Z.eqb_neq in Hs. rewrite Hs, Hok. simpl.
  unfold Http.json_of. destruct (body r) as [data|]; simpl; [|reflexivity].
  destruct (Py.getitem data "message") as [m|e]; simpl; [reflexivity|].
  destruct e; reflexivity.
Qed.

(** C4, as the code has it.  The hook turns a 401 into the
    [CommandException] that asks for a new login.  For any other status
    that [resp.ok] rejects, that is 400 to 599, it raises a
    [CommandException] with the server's [message] when the body decodes
    to an object that has one, and the generic message naming the status
    when the body does not decode.  Every other status, the 2xx ones and
    also 1xx, 3xx and 600 upwards, raises nothing. *)
Theorem handle_response_spec (r : Response) :
  (status_code r = 401%Z ->
     Command._handle_response r = Raise relogin_error) /\
  (status_code r <> 401%Z -> (400 <= status_code r < 600)%Z ->
     forall fields message,
       body r = Some (JObj fields) ->
       Py.assoc "message" fields = Some message ->
       Command._handle_response r = Raise (CommandException (VJson message))) /\
  (status_code r <> 401%Z -> (400 <= status_code r < 600)%Z ->
     body r = None ->
     Command._handle_response r = Raise (unexpected_failure (status_code r))) /\
  ((200 <= status_code r < 300)%Z ->
     Command._handle_response r = Ret tt) /\
  (status_code r <> 401%Z ->
     (status_code r < 400 \/ 600 <= status_code r)%Z ->
     Command._handle_response r = Ret tt).
Proof.
  assert (Hbad : (400 <= status_code r < 600)%Z -> Http.ok r = false).
  { intros H. destruct (Http.ok r) eqn:E; [|reflexivity].
    apply http_ok_iff in E. lia. }
  repeat split.
  - intros H. unfold Command._handle_response, Http.unauthorized.
    rewrite H. reflexivity.
  - intros Hs Hr fields message Hb Hm.
    rewrite (handle_response_error r Hs (Hbad Hr)), Hb. simpl.
    rewrite Hm. reflexivity.
  - intros Hs Hr Hb.
    rewrite (handle_response_error r Hs (Hbad Hr)), Hb. reflexivity.
  - intros Hr. apply handle_response_ok; [lia|]. apply http_ok_iff. lia.
  - intros Hs Hr. apply handle_response_ok; [exact Hs|].
    apply http_ok_iff. exact Hr.
Qed.

Lemma handle_response_spec_witness :
  Command._handle_response (mkResponse 401 None) = Raise relogin_error /\
  Command._handle_response
    (mkResponse 404 (Some (JObj [("message", JStr "no such package")])))
  = Raise (CommandException (VJson (JStr "no such package"))) /\
  Command._handle_response (mkResponse 502 None)
  = Raise (unexpected_failure 502) /\
  Command._handle_response (mkResponse 204 None) = Ret tt /\
  Command._handle_response (mkResponse 304 None) = Ret tt.
Proof.
  split; [|split; [|split; [|split]]].
  - apply (proj1 (handle_response_spec (mkResponse 401 None))). reflexivity.
  - apply (proj1 (proj2 (handle_response_spec
      (mkResponse 404 (Some (JObj [("message", JStr "no such package")])))))
      ltac:(discriminate) ltac:(simpl; lia)
      [("message", JStr "no such package")] (JStr "no such package"));
      reflexivity.
  - apply (proj1 (proj2 (proj2 (handle_response_spec (mkResponse 502 None)))));
      [discriminate | simpl; lia | reflexivity].
  - apply (proj1 (proj2 (proj2 (proj2
      (handle_response_spec (mkResponse 204 None)))))). simpl. lia.
  - apply (proj2 (proj2 (proj2 (proj2
      (handle_response_spec (mkResponse 304 None)))))).
    + discriminate.
    + simpl. lia.
Defined.

(** C4 as the specification words it fails: a 304 is neither a 401 nor a
    2xx status, and the hook lets it through without raising. *)
Lemma handle_response_not_every_non_2xx :
  ~ (forall r : Response,
       status_code r <> 401%Z -> ~ (200 <= status_code r < 300)%Z ->
       exists message,
         Command._handle_response r = Raise (CommandException message)).
Proof.
  intros H.
  destruct (H (mkResponse 304 None)) as [m Hm];
    [discriminate | simpl; lia | discriminate Hm].
Qed.

(** ** Opening a session *)

Section SessionFacts.
Variable E : Env.

Lemma run_ops_app ops1 ops2 w :
  Command.run_ops E (ops1 ++ ops2)%list w
  = Command.run_ops E ops2 (Command.run_ops E ops1 w).
Proof. unfold Command.run_ops. apply fold_left_app. Qed.

Lemma fs_step_frame op w :
  let w' := Command.fs_step E op w in
  clock w' = clock w /\ sent w' = sent w /\ stdin w' = stdin w /\
  stdout w' = stdout w /\ stderr w' = stderr w /\ browser w' = browser w /\
  store w' = store w.
Proof. destruct op; simpl; repeat split; reflexivity. Qed.

(** Saving credentials touches the credential file and its directory
    and nothing else. *)
Lemma run_ops_frame ops w :
  let w' := Command.run_ops E ops w in
  clock w' = clock w /\ sent w' = sent w /\ stdin w' = stdin w /\
  stdout w' = stdout w /\ stderr w' = stderr w /\ browser w' = browser w /\
  store w' = store w.
Proof.
  revert w. induction ops as [|op ops IH]; intros w; simpl.
  - repeat split; reflexivity.
  - destruct (IH (Command.fs_step E op w)) as (H1 & H2 & H3 & H4 & H5 & H6 & H7).
    destruct (fs_step_frame op w) as (G1 & G2 & G3 & G4 & G5 & G6 & G7).
    simpl in *. unfold Command.run_ops in *. simpl.
    repeat split; congruence.
Qed.

(** [_update_auth] issues exactly one request, whatever comes back, and
    changes nothing else; when the endpoint refuses it raises a
    [CommandException]. *)
Lemma update_auth_run refresh_token w :
  exists out,
    Command._update_auth E refresh_token w
    = (out, set_sent (sent w ++ [token_request E refresh_token])%list w) /\
    (forall d,
       server E (sent w) (token_request E refresh_token) = Unreachable d ->
       out = Raise (ConnectionError d)) /\
    (forall r,
       server E (sent w) (token_request E refresh_token) = Answer r ->
       refresh_fails r -> exists reason, out = Raise (CommandException reason)).
Proof.
  unfold Command._update_auth, Command.request, bind, lift, raise, ret.
  fold (token_request E refresh_token).
  destruct (server E (sent w) (token_request E refresh_token)) as [r|d].
  - destruct (status_code r =? Http.ok_code)%Z eqn:Hs; simpl.
    + apply Z.eqb_eq in Hs.
      destruct (Http.json_of r) as [data|e] eqn:Hj.
      * destruct (Py.get data "error") as [error|e] eqn:Hg.
        -- destruct error;
             try (eexists; split; [reflexivity|]; split; [discriminate|];
                  intros r0 [= <-] _; eauto).
           destruct (Py.getitem data "refresh_token");
             destruct (Py.getitem data "access_token");
             destruct (Py.getitem data "expires_at");
             (eexists; split; [reflexivity|]; split; [discriminate|];
              intros r0 [= <-] [Hne|(data' & err & Hb & Hg' & Hnn)];
              [congruence|];
              unfold Http.json_of in Hj; rewrite Hb in Hj;
              injection Hj as ->; rewrite Hg in Hg'; congruence).
        -- eexists; split; [reflexivity|]; split; [discriminate|].
           intros r0 [= <-] [Hne|(data' & err & Hb & Hg' & Hnn)];
             [congruence|].
           unfold Http.json_of in Hj; rewrite Hb in Hj.
           injection Hj as ->. rewrite Hg in Hg'. discriminate.
      * eexists; split; [reflexivity|]; split; [discriminate|].
        intros r0 [= <-] [Hne|(data' & err & Hb & Hg' & Hnn)]; [congruence|].
        unfold Http.json_of in Hj. rewrite Hb in Hj. discriminate.
    + eexists; split; [reflexivity|]; split; [discriminate|].
      intros r0 [= <-] _. eauto.
  - eexists; split; [reflexivity|]; split.
    + intros d0 [= <-]. reflexivity.
    + discriminate.
Qed.

End SessionFacts.

Section CreateSession.
Variable E : Env.

Lemma session_headers_updated :
  Http.hupdate [("Content-Type", VStr "application/json");
                ("Accept", VStr "application/json")]
               (headers (Command.new_session E))
  = anonymous_headers E.
Proof. reflexivity. Qed.

Lemma session_headers_bearer v :
  Http.hset "Authorization" v (anonymous_headers E)
  = (anonymous_headers E ++ [("Authorization", v)])%list.
Proof. reflexivity. Qed.

(** What [create_session] does once the credential file is known to hold
    a record: the test on [expires_at] decides between the refresh and
    the stored token. *)
Lemma create_session_stored w refresh_token access_token expires_at :
  stored_record E w refresh_token access_token expires_at ->
  Command.create_session E w =
  if (expires_at <? clock w + 60)%Z then
    match Command._update_auth E (VJson refresh_token) w with
    | (Ret auth, w') =>
        match Py.getitem auth "access_token" with
        | Ret token =>
            (Ret (mkSession
                    (Http.hset "Authorization" (VFmt "Bearer %s" [VJson token])
                               (anonymous_headers E))
                    (Some Command._handle_response)),
             Command.run_ops E (Command._save_auth_ops E auth w') w')
        | Raise e =>
            (Raise e, Command.run_ops E (Command._save_auth_ops E auth w') w')
        end
    | (Raise (CommandException ex), w') => (Raise (refresh_failed ex), w')
    | (Raise e, w') => (Raise e, w')
    end
  else
    (Ret (mkSession
            (Http.hset "Authorization" (VFmt "Bearer %s" [VJson access_token])
                       (anonymous_headers E))
            (Some Command._handle_response)), w).
Proof.
  intros (f & fields & Hf & Hl & Hr & Ha & He).
  unfold Command.create_session, Command._save_auth, except_CommandException,
    bind, lift, ret, raise, time_time.
  rewrite Hf, Hl. unfold Py.getitem at 1 2. rewrite He, Hr.
  unfold Py.as_number. cbv beta iota.
  destruct (expires_at <? clock w + 60)%Z;
    [|unfold Py.getitem; rewrite Ha; reflexivity].
  destruct (Command._update_auth E (VJson refresh_token) w) as [[auth|e] w'].
  - destruct (Py.getitem auth "access_token"); reflexivity.
  - destruct e; reflexivity.
Qed.

(** C3.  With a stored record whose [expires_at] is more than 60 seconds
    ahead of the clock, [create_session] returns at once in the world it
    started in, so nothing was sent, and the session's [Authorization]
    header is the bearer header built from the stored access token. *)
Theorem create_session_fresh (w : World) (refresh_token access_token : json)
        (expires_at : Z) :
  stored_record E w refresh_token access_token expires_at ->
  (clock w + 60 < expires_at)%Z ->
  exists session,
    Command.create_session E w = (Ret session, w) /\
    sent (snd (Command.create_session E w)) = sent w /\
    Http.hget "Authorization" (headers session)
    = Some (VFmt "Bearer %s" [VJson access_token]).
Proof.
  intros Hrec Hlt.
  rewrite (create_session_stored _ _ _ _ Hrec).
  assert (Hc : (expires_at <? clock w + 60)%Z = false) by (apply Z.ltb_ge; lia).
  rewrite Hc. eexists; split; [reflexivity|]; split; reflexivity.
Qed.

(** C6.  Without a credential file [create_session] does not fail: it
    returns, in the world it started in, a session whose headers have no
    [Authorization] entry and carry the JSON [Content-Type] and [Accept]. *)
Theorem create_session_anonymous (w : World) :
  auth_file w = None ->
  exists session,
    Command.create_session E w = (Ret session, w) /\
    Http.hget "Authorization" (headers session) = None /\
    Http.hget "Content-Type" (headers session)
    = Some (VStr "application/json") /\
    Http.hget "Accept" (headers session) = Some (VStr "application/json").
Proof.
  intros Hf. unfold Command.create_session.
  unfold bind at 1. rewrite Hf. simpl.
  eexists; split; [reflexivity|]. repeat split; reflexivity.
Qed.

(** C2.  With a stored record whose [expires_at] is less than 60 seconds
    ahead of the clock, [create_session] sends exactly one request, the
    refresh call, whatever the outcome.  If the token endpoint refuses
    (a status other than 200, or an [error] field in the body),
    [create_session] raises the [CommandException] that asks for a new
    login, and the credential file is the one it found. *)
Theorem create_session_stale (w : World) (refresh_token access_token : json)
        (expires_at : Z) :
  stored_record E w refresh_token access_token expires_at ->
  (expires_at < clock w + 60)%Z ->
  exists out w',
    Command.create_session E w = (out, w') /\
    sent w' = (sent w ++ [token_request E (VJson refresh_token)])%list /\
    (forall r,
       server E (sent w) (token_request E (VJson refresh_token)) = Answer r ->
       refresh_fails r ->
       (exists reason, out = Raise (refresh_failed reason)) /\
       auth_file w' = auth_file w).
Proof.
  intros Hrec Hlt.
  rewrite (create_session_stored _ _ _ _ Hrec).
  assert (Hc : (expires_at <? clock w + 60)%Z = true) by (apply Z.ltb_lt; lia).
  rewrite Hc.
  destruct (update_auth_run E (VJson refresh_token) w) as (out & Hrun & _ & Hfail).
  rewrite Hrun.
  set (w1 := set_sent (sent w ++ [token_request E (VJson refresh_token)])%list w)
    in *.
  destruct out as [auth|e].
  - pose proof (run_ops_frame E (Command._save_auth_ops E auth w1) w1)
      as (_ & Hsent & _).
    simpl in Hsent.
    destruct (Py.getitem auth "access_token");
      (eexists; eexists; split; [reflexivity|]; split; [exact Hsent|]);
      intros r Hr Hf; destruct (Hfail r Hr Hf) as [reason Habs];
      discriminate Habs.
  - destruct e;
      (eexists; eexists; split; [reflexivity|]; split; [reflexivity|]);
      intros r Hr Hf; destruct (Hfail r Hr Hf) as [reason Habs];
      try discriminate Habs.
    split; [eexists; reflexivity | reflexivity].
Qed.

(** The test is strict: a record that expires exactly 60 seconds ahead
    is used as it is, without a refresh. *)
Lemma create_session_at_sixty (w : World) (refresh_token access_token : json) :
  stored_record E w refresh_token access_token (clock w + 60) ->
  exists session, Command.create_session E w = (Ret session, w).
Proof.
  intros Hrec. rewrite (create_session_stored _ _ _ _ Hrec).
  rewrite Z.ltb_irrefl. eauto.
Qed.

End CreateSession.

Lemma create_session_fresh_witness :
  exists session,
    Command.create_session (Demo.env Demo.down)
      (Demo.world (Some (Demo.file_of Demo.fresh)) [] ∅)
    = (Ret session, Demo.world (Some (Demo.file_of Demo.fresh)) [] ∅) /\
    Http.hget "Authorization" (headers session)
    = Some (VFmt "Bearer %s" [VJson (JStr "a0")]).
Proof.
  destruct (create_session_fresh (Demo.env Demo.down)
              (Demo.world (Some (Demo.file_of Demo.fresh)) [] ∅)
              (JStr "r0") (JStr "a0") 4600)
    as (session & Hrun & _ & Hget).
  - exists (Demo.file_of Demo.fresh),
      [("refresh_token", JStr "r0"); ("access_token", JStr "a0");
       ("expires_at", JNum 4600)].
    repeat split; vm_compute; reflexivity.
  - simpl. lia.
  - exists session. split; assumption.
Defined.

Lemma create_session_anonymous_witness :
  exists session,
    Command.create_session (Demo.env Demo.down) (Demo.world None [] ∅)
    = (Ret session, Demo.world None [] ∅) /\
    Http.hget "Authorization" (headers session) = None /\
    Http.hget "Content-Type" (headers session)
    = Some (VStr "application/json") /\
    Http.hget "Accept" (headers session) = Some (VStr "application/json").
Proof.
  apply (create_session_anonymous (Demo.env Demo.down)
           (Demo.world None [] ∅)).
  reflexivity.
Defined.

Lemma create_session_stale_witness :
  exists reason w',
    Command.create_session
      (Demo.env (Demo.always (mkResponse 401 None)))
      (Demo.world (Some (Demo.file_of Demo.stale)) [] ∅)
    = (Raise (refresh_failed reason), w') /\
    sent w' = [token_request (Demo.env (Demo.always (mkResponse 401 None)))
                             (VJson (JStr "r0"))] /\
    auth_file w' = Some (Demo.file_of Demo.stale).
Proof.
  destruct (create_session_stale
              (Demo.env (Demo.always (mkResponse 401 None)))
              (Demo.world (Some (Demo.file_of Demo.stale)) [] ∅)
              (JStr "r0") (JStr "a0") 1030)
    as (out & w' & Hrun & Hsent & Hfail).
  - exists (Demo.file_of Demo.stale),
      [("refresh_token", JStr "r0"); ("access_token", JStr "a0");
       ("expires_at", JNum 1030)].
    repeat split; vm_compute; reflexivity.
  - simpl. lia.
  - destruct (Hfail (mkResponse 401 None)) as [[reason Hout] Hfile].
    + reflexivity.
    + left. discriminate.
    + exists reason, w'. subst out. repeat split; assumption.
Defined.

(** ** Saving credentials *)

Lemma append_assoc (a b c : string) : a ++ b ++ c = (a ++ b) ++ c.
Proof.
  induction a as [|ch a IH]; [reflexivity|].
  change (String ch (a ++ b ++ c) = String ch ((a ++ b) ++ c)).
  f_equal. exact IH.
Qed.

Lemma append_empty_r (a : string) : a ++ "" = a.
Proof.
  induction a as [|ch a IH]; [reflexivity|].
  change (String ch (a ++ "") = String ch a). f_equal. exact IH.
Qed.

Section SaveAuth.
Variable E : Env.

(** The writing phase, interrupted anywhere: the file holds what it held
    plus some of the chunks, a prefix of the full text. *)
Lemma write_phase_crashed chunks :
  forall k text bits w,
    auth_file w = Some (mkFile text bits) ->
    exists text',
      auth_file (Command.run_ops E
                   (firstn k (map Write chunks ++ [Close])%list) w)
      = Some (mkFile text' bits) /\
      exists rest,
        text ++ fold_right String.append "" chunks = text' ++ rest.
Proof.
  induction chunks as [|chunk chunks IH]; intros k text bits w Hf.
  - exists text. split; [|exists ""; reflexivity].
    destruct k as [|[|k]]; exact Hf.
  - destruct k as [|k].
    + exists text. split; [exact Hf|]. eexists. reflexivity.
    + simpl. destruct (IH k (text ++ chunk) bits
                          (Command.fs_step E (Write chunk) w))
        as (text' & Hrun & rest & Hrest).
      * simpl. rewrite Hf. reflexivity.
      * exists text'. split; [exact Hrun|]. exists rest.
        rewrite <- Hrest. apply append_assoc.
Qed.

(** The writing phase run to its end. *)
Lemma write_phase_done chunks :
  forall text bits w,
    auth_file w = Some (mkFile text bits) ->
    auth_file (Command.run_ops E (map Write chunks ++ [Close])%list w)
    = Some (mkFile (text ++ fold_right String.append "" chunks) bits).
Proof.
  induction chunks as [|chunk chunks IH]; intros text bits w Hf.
  - simpl. rewrite append_empty_r. exact Hf.
  - simpl. rewrite append_assoc. apply IH. simpl. rewrite Hf. reflexivity.
Qed.

Lemma open_chmod_write_crashed auth k w :
  auth_file
    (Command.run_ops E
       (firstn k ([OpenTruncate;
                   Chmod (Z.lor Command.S_IRUSR Command.S_IWUSR)]
                    ++ map Write (json_iterencode E auth) ++ [Close])%list) w)
  = auth_file w \/
  exists text bits,
    auth_file
      (Command.run_ops E
         (firstn k ([OpenTruncate;
                     Chmod (Z.lor Command.S_IRUSR Command.S_IWUSR)]
                      ++ map Write (json_iterencode E auth) ++ [Close])%list) w)
    = Some (mkFile text bits) /\
    exists rest, Command.json_dumps E auth = text ++ rest.
Proof.
  destruct k as [|[|k]].
  - left. reflexivity.
  - right. simpl.
    destruct (auth_file w) as [f|]; eexists "", _;
      (split; [reflexivity|]);
      exists (Command.json_dumps E auth); reflexivity.
  - right.
    destruct (write_phase_crashed (json_iterencode E auth) k ""
                (Z.lor Command.S_IRUSR Command.S_IWUSR)
                (Command.fs_step E
                   (Chmod (Z.lor Command.S_IRUSR Command.S_IWUSR))
                   (Command.fs_step E OpenTruncate w)))
      as (text' & Hrun & rest & Hrest).
    + simpl. destruct (auth_file w); reflexivity.
    + exists text', (Z.lor Command.S_IRUSR Command.S_IWUSR).
      split; [exact Hrun|]. exists rest. exact Hrest.
Qed.

End SaveAuth.

(** Interrupted after any number of its steps, [_save_auth] leaves the
    credential file untouched or holding a prefix of the new text. *)
Lemma save_auth_crashed_cases (E : Env) (auth : json) (w : World) (k : nat) :
  auth_file (Command._save_auth_crashed E k auth w) = auth_file w \/
  exists text bits,
    auth_file (Command._save_auth_crashed E k auth w)
    = Some (mkFile text bits) /\
    exists rest, Command.json_dumps E auth = text ++ rest.
Proof.
  unfold Command._save_auth_crashed, Command._save_auth_ops.
  destruct (base_dir w).
  - apply open_chmod_write_crashed.
  - destruct k as [|k]; [left; reflexivity|].
    apply (open_chmod_write_crashed E auth k (set_base_dir true w)).
Qed.

(** Run to its end, [_save_auth] leaves the new text, owner-only. *)
Lemma save_auth_done (E : Env) (auth : json) (w : World) :
  auth_file (snd (Command._save_auth E auth w))
  = Some (mkFile (Command.json_dumps E auth) 384).
Proof.
  unfold Command._save_auth, Command._save_auth_ops.
  assert (Hrun : forall w0,
    auth_file (Command.run_ops E
      ([OpenTruncate; Chmod (Z.lor Command.S_IRUSR Command.S_IWUSR)]
         ++ map Write (json_iterencode E auth) ++ [Close])%list w0)
    = Some (mkFile (Command.json_dumps E auth) 384)).
  { intros w0.
    apply (write_phase_done E (json_iterencode E auth) "" 384).
    simpl. destruct (auth_file w0); reflexivity. }
  simpl. destruct (base_dir w); [apply Hrun|].
  apply (Hrun (set_base_dir true w)).
Qed.

(** C5, as the code has it.  [_save_auth] rewrites the credential file
    in place: it truncates the file, restricts it to its owner and
    appends the encoded record chunk by chunk.  Interrupted after any
    number of these steps, the file is either still the one found or
    holds a prefix, possibly empty, of the new record's text; run to its
    end, the file holds exactly the new record's text with mode 0600. *)
Theorem save_auth_in_place (E : Env) (auth : json) (w : World) :
  (forall k,
     auth_file (Command._save_auth_crashed E k auth w) = auth_file w \/
     exists text bits,
       auth_file (Command._save_auth_crashed E k auth w)
       = Some (mkFile text bits) /\
       exists rest, Command.json_dumps E auth = text ++ rest) /\
  auth_file (snd (Command._save_auth E auth w))
  = Some (mkFile (Command.json_dumps E auth) 384).
Proof.
  split; [intros k; apply save_auth_crashed_cases | apply save_auth_done].
Qed.

(** C5 as the specification words it fails: between opening the file
    for writing and the end of the write, the file is neither the old
    record nor the new one. *)
Lemma save_auth_not_atomic :
  ~ atomic_write (Demo.env Demo.down) Demo.renewed
      (Demo.world (Some (Demo.file_of Demo.stale)) [] ∅).
Proof.
  intros H. destruct (H 1%nat) as [Habs|Habs]; vm_compute in Habs;
    discriminate Habs.
Qed.

(** What an interrupted write can leave for the next process to read.
    If the decoder accepts no proper prefix of the new record's text, as
    is the case for the text of a JSON object, then a credential file
    that decodes after a crash is the untouched old file or holds the
    complete new text: old and new fields are never mixed. *)
Lemma crash_leaves_old_or_new (E : Env) (auth : json) (w : World) :
  (forall text rest,
     rest <> "" -> Command.json_dumps E auth = text ++ rest ->
     json_loads E text = None) ->
  forall k f record,
    auth_file (Command._save_auth_crashed E k auth w) = Some f ->
    json_loads E (content f) = Some record ->
    auth_file w = Some f \/ content f = Command.json_dumps E auth.
Proof.
  intros Hprefix k f record Hf Hload.
  destruct (save_auth_crashed_cases E auth w k)
    as [Hold|(text & bits & Hnew & rest & Hrest)].
  - left. rewrite <- Hold. exact Hf.
  - right. rewrite Hnew in Hf. injection Hf as <-. simpl in *.
    destruct rest as [|ch rest].
    + rewrite append_empty_r in Hrest. congruence.
    + rewrite (Hprefix text (String ch rest)) in Hload;
        [discriminate | discriminate | exact Hrest].
Qed.

(** ** Push and install against the local store *)

Section LocalStore.
Variable E : Env.

(** C7.  When the package identifier parses and the local store has no
    artifact for it, [push] raises the package-not-found
    [CommandException] in the world it started in: no request has been
    issued. *)
Theorem push_missing_package (session : Session) (package owner pkg : string)
        (w : World) :
  _parse_package package = Ret (owner, pkg) ->
  Store.artifact owner pkg w = None ->
  Command.push E session package w
  = (Raise (Command.package_not_found owner pkg), w) /\
  sent (snd (Command.push E session package w)) = sent w.
Proof.
  intros Hp Ha.
  assert (Hrun : Command.push E session package w
                 = (Raise (Command.package_not_found owner pkg), w)).
  { unfold Command.push, bind, lift. rewrite Hp.
    unfold Store.get_store, Store.exists_. simpl. rewrite Ha. reflexivity. }
  rewrite Hrun. split; reflexivity.
Qed.

(** C10.  When the package is already in the local store and the answer
    to the overwrite question, lowercased, is not ["y"], [install]
    returns without a request having been issued and with the store,
    and so the package's artifact, as it was. *)
Theorem install_declined (session : Session) (package owner pkg : string)
        (bytes answer : string) (rest : list string) (w : World) :
  _parse_package package = Ret (owner, pkg) ->
  Store.artifact owner pkg w = Some bytes ->
  stdin w = answer :: rest ->
  PyStr.lower answer <> "y" ->
  exists w',
    Command.install E session package w = (Ret tt, w') /\
    sent w' = sent w /\
    store w' = store w /\
    Store.artifact owner pkg w' = Some bytes.
Proof.
  intros Hp Ha Hin Hans.
  unfold Command.install, bind, lift. rewrite Hp.
  unfold Store.get_store, Store.exists_. simpl.
  unfold Store.artifact in Ha.
  destruct (store w !! owner) as [dir|] eqn:Hdir; [|discriminate].
  unfold Store.artifact. rewrite Hdir, Ha.
  unfold print, input, bind, ret. simpl. rewrite Hin.
  apply String.eqb_neq in Hans. rewrite Hans. simpl.
  eexists. split; [reflexivity|]. simpl. rewrite Hdir. auto.
Qed.

End LocalStore.

Lemma push_missing_package_witness :
  Command.push (Demo.env Demo.down)
    (mkSession [] None) "acme/missing" (Demo.world None [] ∅)
  = (Raise (Command.package_not_found "acme" "missing"),
     Demo.world None [] ∅) /\
  sent (snd (Command.push (Demo.env Demo.down)
               (mkSession [] None) "acme/missing" (Demo.world None [] ∅)))
  = [].
Proof.
  apply (push_missing_package (Demo.env Demo.down) (mkSession [] None)
           "acme/missing" "acme" "missing" (Demo.world None [] ∅));
    reflexivity.
Defined.

Lemma install_declined_witness :
  exists w',
    Command.install (Demo.env Demo.down) (mkSession [] None) "acme/widget"
      (Demo.world None ["N"] Demo.widget_installed)
    = (Ret tt, w') /\
    sent w' = [] /\
    store w' = Demo.widget_installed /\
    Store.artifact "acme" "widget" w' = Some "artifact bytes".
Proof.
  apply (install_declined (Demo.env Demo.down) (mkSession [] None)
           "acme/widget" "acme" "widget" "artifact bytes" "N" []
           (Demo.world None ["N"] Demo.widget_installed)).
  - reflexivity.
  - vm_compute. reflexivity.
  - reflexivity.
  - vm_compute. discriminate.
Defined.

(** Answering [Y] lets [install] go on to ask the registry. *)
Example install_confirmed_asks_registry :
  length (sent (snd (Command.install (Demo.env Demo.down) (mkSession [] None)
                       "acme/widget"
                       (Demo.world None ["Y"] Demo.widget_installed))))
  = 1%nat.
Proof. vm_compute. reflexivity. Qed.

(** ** Exit codes *)

Section Main.
Variable E : Env.

(** What [main] returns follows the outcome of the [try] body: 0 when it
    ends normally, 1 after printing a [CommandException], nothing after
    printing a [ConnectionError]; any other exception leaves [main]. *)
Lemma main_outcomes c w :
  match Command.main_try E c w with
  | (Ret _, w') => Command.main E c w = (Ret (Command.ReturnInt 0), w')
  | (Raise (CommandException ex), w') =>
      Command.main E c w
      = (Ret (Command.ReturnInt 1), set_stderr (stderr w' ++ [ex])%list w')
  | (Raise (ConnectionError ex), w') =>
      Command.main E c w
      = (Ret Command.ReturnNone,
         set_stderr (stderr w' ++ [VFmt "Failed to connect: %s" [ex]])%list w')
  | (Raise e, w') => Command.main E c w = (Raise e, w')
  end.
Proof.
  unfold Command.main.
  destruct (Command.main_try E c w) as [[u|e] w']; [reflexivity|].
  destruct e; reflexivity.
Qed.

Lemma main_success c w w' :
  Command.main_try E c w = (Ret tt, w') ->
  Command.main E c w = (Ret (Command.ReturnInt 0), w').
Proof. intros H. pose proof (main_outcomes c w) as Hm. rewrite H in Hm. exact Hm. Qed.

Lemma main_command_failure c w w' ex :
  Command.main_try E c w = (Raise (CommandException ex), w') ->
  exists w'', Command.main E c w = (Ret (Command.ReturnInt 1), w'').
Proof.
  intros H. pose proof (main_outcomes c w) as Hm. rewrite H in Hm. eauto.
Qed.

Lemma main_connection_failure c w w' ex :
  Command.main_try E c w = (Raise (ConnectionError ex), w') ->
  exists w'', Command.main E c w = (Ret Command.ReturnNone, w'').
Proof.
  intros H. pose proof (main_outcomes c w) as Hm. rewrite H in Hm. eauto.
Qed.

End Main.

(** C8, where the code departs from it.  [quilt install acme/widget]
    with the registry unreachable: [main] prints the connection failure
    and runs off its end, so it returns [None], and a process that exits
    with [main]'s result exits with status 0, not with a non-zero one. *)
Theorem main_unreachable_registry :
  exists w',
    Command.main (Demo.env Demo.down) (Command.CmdInstall "acme/widget")
      (Demo.world None [] ∅)
    = (Ret Command.ReturnNone, w') /\
    stderr w' = [VFmt "Failed to connect: %s" [VStr "connection refused"]] /\
    Command.exit_status Command.ReturnNone = 0%Z.
Proof.
  eexists. split; [vm_compute; reflexivity|]. split; reflexivity.
Qed.

Example main_push_missing_returns_1 :
  fst (Command.main (Demo.env Demo.down) (Command.CmdPush "acme/missing")
         (Demo.world None [] ∅))
  = Ret (Command.ReturnInt 1).
Proof. vm_compute. reflexivity. Qed.

(** The session is opened by [main] before [push] runs: with a stale
    credential file the refresh call is the one request of the run. *)
Example main_push_missing_after_refresh :
  let E := Demo.env (Demo.always (mkResponse 200 (Some Demo.renewed))) in
  let w := Demo.world (Some (Demo.file_of Demo.stale)) [] ∅ in
  fst (Command.main E (Command.CmdPush "acme/missing") w)
  = Ret (Command.ReturnInt 1) /\
  sent (snd (Command.main E (Command.CmdPush "acme/missing") w))
  = [token_request E (VJson (JStr "r0"))] /\
  auth_file (snd (Command.main E (Command.CmdPush "acme/missing") w))
  = Some (Demo.file_of Demo.renewed).
Proof. vm_compute. repeat split; reflexivity. Qed.

Example main_logout_returns_0 :
  fst (Command.main (Demo.env Demo.down) Command.CmdLogout
         (Demo.world (Some (Demo.file_of Demo.fresh)) [] ∅))
  = Ret (Command.ReturnInt 0).
Proof. vm_compute. reflexivity. Qed.

(** ** Reading a file with a progress bar *)

Section ReadProgress.

(** Constructing the reader from the path of an existing file opens a
    file object and a progress bar, both live on entry to the block. *)
Lemma init_from_path path bytes io :
  Util.disk io !! path = Some bytes ->
  exists io1,
    Util.__init__ (inl path) io
    = (Ret (Util.mkFileWithReadProgress
              (Util.next_id io) true (S (Util.next_id io))), io1) /\
    Util.is_open (Util.next_id io) io1 = true /\
    Util.bar_is_open (S (Util.next_id io)) io1 = true.
Proof.
  intros Hd.
  unfold Util.__init__, Util.open_rb, Util.fd_seek, Util.fd_tell, Util.tqdm,
    Util.on_file, Util.set_pos, bind, ret.
  rewrite Hd. simpl.
  rewrite lookup_insert_eq. simpl.
  assert (H0 : (Z.of_nat (String.length bytes) + 0 <? 0)%Z = false)
    by (apply Z.ltb_ge; lia).
  rewrite H0. simpl. rewrite lookup_insert_eq. simpl.
  rewrite lookup_insert_eq. simpl.
  eexists. split; [reflexivity|].
  unfold Util.is_open, Util.bar_is_open. simpl.
  rewrite !lookup_insert_eq. split; reflexivity.
Qed.

(** Closing a reader that owns its file leaves neither the file object
    nor the bar open, from any state. *)
Lemma close_owned self io :
  Util._need_to_close self = true ->
  exists io',
    Util.close self io = (Ret tt, io') /\
    Util.is_open (Util._fd self) io' = false /\
    Util.bar_is_open (Util._progress self) io' = false.
Proof.
  intros Hn.
  unfold Util.close, Util.tqdm_close, Util.fd_close, bind, ret.
  rewrite Hn. eexists. split; [reflexivity|].
  unfold Util.is_open, Util.bar_is_open. simpl.
  rewrite !lookup_delete_eq. split; reflexivity.
Qed.

(** C9.  When [FileWithReadProgress] is given the path of an existing
    file it opens a file object and a progress bar, and whatever the
    block of the [with] statement does, whether it ends normally or
    raises, on leaving the block both are closed; the outcome of the
    block is the outcome of the statement. *)
Theorem with_reader_closes (A : Type) (path bytes : string)
        (body : Util.FileWithReadProgress -> St Util.IO A) (io : Util.IO) :
  Util.disk io !! path = Some bytes ->
  exists self io1 io2,
    Util.__init__ (inl path) io = (Ret self, io1) /\
    Util._need_to_close self = true /\
    Util.is_open (Util._fd self) io1 = true /\
    Util.bar_is_open (Util._progress self) io1 = true /\
    Util.with_FileWithReadProgress (inl path) body io
    = (fst (body self io1), io2) /\
    Util.is_open (Util._fd self) io2 = false /\
    Util.bar_is_open (Util._progress self) io2 = false.
Proof.
  intros Hd.
  destruct (init_from_path path bytes io Hd) as (io1 & Hinit & Hfd & Hbar).
  set (self := Util.mkFileWithReadProgress
                 (Util.next_id io) true (S (Util.next_id io))) in *.
  destruct (body self io1) as [out iob] eqn:Hbody.
  destruct (close_owned self iob eq_refl) as (io2 & Hclose & Hfd2 & Hbar2).
  exists self, io1, io2.
  repeat split; try assumption.
  unfold Util.with_FileWithReadProgress, Util.__enter__, Util.__exit__,
    finally, bind, ret.
  rewrite Hinit. cbv beta iota. rewrite Hbody. cbv beta iota.
  rewrite Hclose. reflexivity.
Qed.

End ReadProgress.

Lemma with_reader_closes_witness :
  exists self io1 io2,
    Util.__init__ (inl "artifact.h5")
      (Util.mkIO {[ "artifact.h5" := "0123456789" ]} 0 ∅ ∅)
    = (Ret self, io1) /\
    Util._need_to_close self = true /\
    Util.is_open (Util._fd self) io1 = true /\
    Util.bar_is_open (Util._progress self) io1 = true /\
    Util.with_FileWithReadProgress (inl "artifact.h5")
      (fun f => Util.read f 4 ;; raise IOError)
      (Util.mkIO {[ "artifact.h5" := "0123456789" ]} 0 ∅ ∅)
    = (fst ((Util.read self 4 ;; raise (A := unit) IOError) io1), io2) /\
    Util.is_open (Util._fd self) io2 = false /\
    Util.bar_is_open (Util._progress self) io2 = false.
Proof.
  apply (with_reader_closes unit "artifact.h5" "0123456789"
           (fun f => Util.read f 4 ;; raise IOError)
           (Util.mkIO {[ "artifact.h5" := "0123456789" ]} 0 ∅ ∅)).
  vm_compute. reflexivity.
Defined.

Example read_updates_progress :
  let io := Util.mkIO {[ "artifact.h5" := "0123456789" ]} 0 ∅ ∅ in
  fst (Util.with_FileWithReadProgress (inl "artifact.h5")
         (fun f => a <- Util.read f 4 ;; b <- Util.read f (-1) ;;
                   c <- Util.tell f ;; ret (a, b, c)) io)
  = Ret ("0123", "456789", 10%nat).
Proof. vm_compute. reflexivity. Qed.

(** A reader handed an already open file object closes only its bar. *)
Example borrowed_file_stays_open :
  let io := Util.mkIO ∅ 1 {[ 0%nat := Util.mkOpenFile "abc" 0 ]} ∅ in
  Util.is_open 0
    (snd (Util.with_FileWithReadProgress (inr 0%nat)
            (fun f => Util.read f (-1)) io))
  = true.
Proof. vm_compute. reflexivity. Qed.

(* ===================================================================== *)
(** * Further properties of the code *)
(* ===================================================================== *)

(** ** Exchanging a token *)

Section TokenExchange.
Variable E : Env.

Lemma update_auth_grant_run (refresh_token : pyval) (w : World) (r : Response)
      (new_refresh new_access new_expiry : json) :
  server E (sent w) (token_request E refresh_token) = Answer r ->
  grants r new_refresh new_access new_expiry ->
  Command._update_auth E refresh_token w
  = (Ret (credential new_refresh new_access new_expiry),
     set_sent (sent w ++ [token_request E refresh_token])%list w).
Proof.
  intros Hr (Hs & fields & Hb & Herr & H1 & H2 & H3).
  unfold Command._update_auth, Command.request, bind, lift, raise, ret.
  fold (token_request E refresh_token). rewrite Hr, Hs. simpl.
  unfold Http.json_of. rewrite Hb. unfold Py.get, Py.getitem.
  rewrite H1, H2, H3.
  destruct Herr as [He|He]; rewrite He; reflexivity.
Qed.

(** When the token endpoint grants, [_update_auth] returns a record of
    exactly the three credential fields, whatever else the answer
    carries, after exactly one request. *)
Theorem update_auth_granted (refresh_token : pyval) (w : World) (r : Response)
        (new_refresh new_access new_expiry : json) :
  server E (sent w) (token_request E refresh_token) = Answer r ->
  grants r new_refresh new_access new_expiry ->
  Command._update_auth E refresh_token w
  = (Ret (credential new_refresh new_access new_expiry),
     set_sent (sent w ++ [token_request E refresh_token])%list w).
Proof. apply update_auth_grant_run. Qed.

(** A 200 answer that is not what the endpoint promises does not give a
    [CommandException]: a body that does not decode raises [ValueError],
    a decoded body that is not an object raises [AttributeError], and an
    object without an [error] that lacks the refresh token raises
    [KeyError].  One request has been sent in each case. *)
Theorem update_auth_malformed (refresh_token : pyval) (w : World)
        (r : Response) :
  server E (sent w) (token_request E refresh_token) = Answer r ->
  status_code r = Http.ok_code ->
  let w' := set_sent (sent w ++ [token_request E refresh_token])%list w in
  (body r = None ->
     Command._update_auth E refresh_token w = (Raise ValueError, w')) /\
  (forall data, body r = Some data ->
     (forall fields, data <> JObj fields) ->
     Command._update_auth E refresh_token w = (Raise AttributeError, w')) /\
  (forall fields, body r = Some (JObj fields) ->
     Py.assoc "error" fields = None ->
     Py.assoc "refresh_token" fields = None ->
     Command._update_auth E refresh_token w
     = (Raise (KeyError "refresh_token"), w')).
Proof.
  intros Hr Hs w'.
  unfold Command._update_auth, Command.request, bind, lift, raise, ret.
  fold (token_request E refresh_token). rewrite Hr, Hs. simpl.
  unfold Http.json_of. repeat split.
  - intros Hb. rewrite Hb. reflexivity.
  - intros data Hb Hno. rewrite Hb.
    destruct data; try reflexivity. exfalso. eapply Hno. reflexivity.
  - intros fields Hb He Ht. rewrite Hb. unfold Py.get, Py.getitem.
    rewrite He, Ht. reflexivity.
Qed.


End TokenExchange.

Lemma update_auth_granted_witness :
  Command._update_auth
    (Demo.env (Demo.always (mkResponse 200 (Some Demo.renewed))))
    (VStr "code") (Demo.world None [] ∅)
  = (Ret (credential (JStr "r1") (JStr "a1") (JNum 4630)),
     set_sent
       [token_request
          (Demo.env (Demo.always (mkResponse 200 (Some Demo.renewed))))
          (VStr "code")]
       (Demo.world None [] ∅)).
Proof.
  apply (update_auth_granted
           (Demo.env (Demo.always (mkResponse 200 (Some Demo.renewed))))
           (VStr "code") (Demo.world None [] ∅)
           (mkResponse 200 (Some Demo.renewed))).
  - reflexivity.
  - split; [reflexivity|].
    exists [("refresh_token", JStr "r1"); ("access_token", JStr "a1");
            ("expires_at", JNum 4630)].
    repeat split; try reflexivity. left. reflexivity.
Defined.

Lemma update_auth_malformed_witness :
  Command._update_auth
    (Demo.env (Demo.always (mkResponse 200 None)))
    (VStr "code") (Demo.world None [] ∅)
  = (Raise ValueError,
     set_sent
       [token_request (Demo.env (Demo.always (mkResponse 200 None)))
                      (VStr "code")]
       (Demo.world None [] ∅)).
Proof.
  apply (proj1 (update_auth_malformed
                  (Demo.env (Demo.always (mkResponse 200 None)))
                  (VStr "code") (Demo.world None [] ∅)
                  (mkResponse 200 None) eq_refl eq_refl)).
  reflexivity.
Defined.

(** ** Sessions, login and logout *)

Section Credentials.
Variable E : Env.

Lemma update_auth_world refresh_token w out w' :
  Command._update_auth E refresh_token w = (out, w') ->
  w' = set_sent (sent w ++ [token_request E refresh_token])%list w.
Proof.
  intros H. destruct (update_auth_run E refresh_token w) as (out' & Hrun & _).
  rewrite Hrun in H. congruence.
Qed.

(** A successful refresh: the credential file is replaced by the text of
    the new record, readable by its owner only, the session carries the
    new access token, and one request was sent. *)
Theorem create_session_refreshed (w : World)
        (refresh_token access_token : json) (expires_at : Z) (r : Response)
        (new_refresh new_access new_expiry : json) :
  stored_record E w refresh_token access_token expires_at ->
  (expires_at < clock w + 60)%Z ->
  server E (sent w) (token_request E (VJson refresh_token)) = Answer r ->
  grants r new_refresh new_access new_expiry ->
  exists session w',
    Command.create_session E w = (Ret session, w') /\
    sent w' = (sent w ++ [token_request E (VJson refresh_token)])%list /\
    auth_file w'
    = Some (mkFile (Command.json_dumps E
                      (credential new_refresh new_access new_expiry)) 384) /\
    Http.hget "Authorization" (headers session)
    = Some (VFmt "Bearer %s" [VJson new_access]).
Proof.
  intros Hrec Hlt Hr Hg.
  rewrite (create_session_stored E _ _ _ _ Hrec).
  assert (Hc : (expires_at <? clock w + 60)%Z = true) by (apply Z.ltb_lt; lia).
  rewrite Hc, (update_auth_grant_run E _ _ _ _ _ _ Hr Hg).
  set (w1 := set_sent _ w).
  simpl Py.getitem. cbv beta iota.
  eexists _, _. split; [reflexivity|].
  pose proof (run_ops_frame E
                (Command._save_auth_ops E
                   (credential new_refresh new_access new_expiry) w1) w1)
    as (_ & Hsent & _).
  split; [exact Hsent|]. split; [|reflexivity].
  apply (save_auth_done E (credential new_refresh new_access new_expiry) w1).
Qed.

(** A credential file that is not a record with a numeric [expires_at]
    stops [create_session] with [ValueError], [KeyError] or [TypeError],
    none of which [main] handles, before anything is sent or written. *)
Theorem create_session_unusable_file (w : World) (f : File) :
  auth_file w = Some f ->
  (json_loads E (content f) = None ->
     Command.create_session E w = (Raise ValueError, w)) /\
  (forall fields, json_loads E (content f) = Some (JObj fields) ->
     Py.assoc "expires_at" fields = None ->
     Command.create_session E w = (Raise (KeyError "expires_at"), w)) /\
  (forall fields text, json_loads E (content f) = Some (JObj fields) ->
     Py.assoc "expires_at" fields = Some (JStr text) ->
     Command.create_session E w = (Raise TypeError, w)).
Proof.
  intros Hf.
  unfold Command.create_session, bind, lift, ret, raise, time_time.
  rewrite Hf. repeat split.
  - intros Hl. rewrite Hl. reflexivity.
  - intros fields Hl He. rewrite Hl. unfold Py.getitem at 1. rewrite He.
    reflexivity.
  - intros fields text Hl He. rewrite Hl. unfold Py.getitem at 1. rewrite He.
    reflexivity.
Qed.


End Credentials.

Lemma create_session_refreshed_witness :
  exists session w',
    Command.create_session
      (Demo.env (Demo.always (mkResponse 200 (Some Demo.renewed))))
      (Demo.world (Some (Demo.file_of Demo.stale)) [] ∅)
    = (Ret session, w') /\
    auth_file w' = Some (Demo.file_of Demo.renewed) /\
    Http.hget "Authorization" (headers session)
    = Some (VFmt "Bearer %s" [VJson (JStr "a1")]).
Proof.
  destruct (create_session_refreshed
              (Demo.env (Demo.always (mkResponse 200 (Some Demo.renewed))))
              (Demo.world (Some (Demo.file_of Demo.stale)) [] ∅)
              (JStr "r0") (JStr "a0") 1030
              (mkResponse 200 (Some Demo.renewed))
              (JStr "r1") (JStr "a1") (JNum 4630))
    as (session & w' & Hrun & _ & Hfile & Hget).
  - exists (Demo.file_of Demo.stale),
      [("refresh_token", JStr "r0"); ("access_token", JStr "a0");
       ("expires_at", JNum 1030)].
    repeat split; vm_compute; reflexivity.
  - simpl. lia.
  - reflexivity.
  - split; [reflexivity|].
    exists [("refresh_token", JStr "r1"); ("access_token", JStr "a1");
            ("expires_at", JNum 4630)].
    repeat split; try reflexivity. left. reflexivity.
  - exists session, w'. repeat split; assumption.
Defined.

Lemma create_session_unusable_file_witness :
  Command.create_session (Demo.env Demo.down)
    (Demo.world (Some (mkFile "{" 384)) [] ∅)
  = (Raise ValueError, Demo.world (Some (mkFile "{" 384)) [] ∅).
Proof.
  apply (proj1 (create_session_unusable_file (Demo.env Demo.down)
                  (Demo.world (Some (mkFile "{" 384)) [] ∅)
                  (mkFile "{" 384) eq_refl)).
  vm_compute. reflexivity.
Defined.


Section LoginLogout.
Variable E : Env.

(** The login page [login] opens in the browser. *)
Let login_page : pyval := VFmt "%s/login" [VStr (QUILT_PKG_URL E)].

Lemma login_run w code rest :
  stdin w = code :: rest ->
  Command.login E w =
  let w1 := set_stdin rest
              (set_stdout (stdout w ++ [VStr "Enter the code: "])%list
                 (set_browser (browser w ++ [login_page])%list w)) in
  match Command._update_auth E (VStr code) w1 with
  | (Ret auth, w2) =>
      (Ret tt, Command.run_ops E (Command._save_auth_ops E auth w2) w2)
  | (Raise e, w2) => (Raise e, w2)
  end.
Proof.
  intros Hin. unfold Command.login, Command._save_auth, input, bind, ret.
  simpl. rewrite Hin.
  destruct (Command._update_auth E (VStr code) _) as [[auth|e] w2];
    reflexivity.
Qed.

(** A granted login: the typed code is sent as the refresh token in the
    one request made, and the record that comes back is written to the
    credential file, readable by its owner only. *)
Theorem login_granted (w : World) (code : string) (rest : list string)
        (r : Response) (new_refresh new_access new_expiry : json) :
  stdin w = code :: rest ->
  server E (sent w) (token_request E (VStr code)) = Answer r ->
  grants r new_refresh new_access new_expiry ->
  exists w',
    Command.login E w = (Ret tt, w') /\
    sent w' = (sent w ++ [token_request E (VStr code)])%list /\
    auth_file w'
    = Some (mkFile (Command.json_dumps E
                      (credential new_refresh new_access new_expiry)) 384) /\
    browser w' = (browser w ++ [VFmt "%s/login" [VStr (QUILT_PKG_URL E)]])%list.
Proof.
  intros Hin Hr Hg. rewrite (login_run w code rest Hin). cbv zeta.
  set (w1 := set_stdin rest _).
  rewrite (update_auth_grant_run E (VStr code) w1 r _ _ _ Hr Hg).
  set (w2 := set_sent _ w1).
  set (auth := credential new_refresh new_access new_expiry).
  eexists. split; [reflexivity|].
  pose proof (run_ops_frame E (Command._save_auth_ops E auth w2) w2)
    as (_ & Hsent & _ & _ & _ & Hbr & _).
  split; [exact Hsent|]. split; [|exact Hbr].
  apply (save_auth_done E auth w2).
Qed.

(** [login] writes the credential file as its last step: whenever it
    raises (no code typed, endpoint unreachable, refusal, malformed
    answer) the file is as it was. *)
Theorem login_raise_keeps_file (w w' : World) (e : exn) :
  Command.login E w = (Raise e, w') ->
  auth_file w' = auth_file w.
Proof.
  destruct (stdin w) as [|code rest] eqn:Hin.
  - unfold Command.login, input, bind, ret. simpl. rewrite Hin.
    intros H. inversion H. reflexivity.
  - rewrite (login_run w code rest Hin). cbv zeta.
    destruct (Command._update_auth E (VStr code) _) as [[auth|e0] w2] eqn:Hu;
      [discriminate|].
    apply update_auth_world in Hu. intros H. inversion H. subst.
    reflexivity.
Qed.

(** After a granted login whose token is good for at least a minute,
    and with a decoder that reads back what the encoder wrote, opening a
    session sends nothing more and uses the access token just stored. *)
Theorem login_then_session (w : World) (code : string) (rest : list string)
        (r : Response) (new_refresh new_access : json) (new_expiry : Z) :
  stdin w = code :: rest ->
  server E (sent w) (token_request E (VStr code)) = Answer r ->
  grants r new_refresh new_access (JNum new_expiry) ->
  json_loads E (Command.json_dumps E
                  (credential new_refresh new_access (JNum new_expiry)))
  = Some (credential new_refresh new_access (JNum new_expiry)) ->
  (clock w + 60 <= new_expiry)%Z ->
  exists w' session,
    Command.login E w = (Ret tt, w') /\
    Command.create_session E w' = (Ret session, w') /\
    Http.hget "Authorization" (headers session)
    = Some (VFmt "Bearer %s" [VJson new_access]).
Proof.
  intros Hin Hr Hg Hcodec Hexp. rewrite (login_run w code rest Hin). cbv zeta.
  set (w1 := set_stdin rest _).
  rewrite (update_auth_grant_run E (VStr code) w1 r _ _ _ Hr Hg).
  set (w2 := set_sent _ w1).
  set (auth := credential new_refresh new_access (JNum new_expiry)).
  set (w3 := Command.run_ops E (Command._save_auth_ops E auth w2) w2).
  pose proof (run_ops_frame E (Command._save_auth_ops E auth w2) w2)
    as (Hclock & _).
  pose proof (save_auth_done E auth w2) as Hfile.
  fold w3 in Hclock. simpl in Hfile. fold w3 in Hfile.
  assert (Hrec : stored_record E w3 new_refresh new_access new_expiry).
  { eexists _, _. split; [exact Hfile|]. split; [exact Hcodec|].
    repeat split; reflexivity. }
  exists w3. eexists. split; [reflexivity|].
  rewrite (create_session_stored E _ _ _ _ Hrec).
  assert (Hc : (new_expiry <? clock w3 + 60)%Z = false).
  { apply Z.ltb_ge. rewrite Hclock. simpl. lia. }
  rewrite Hc. split; reflexivity.
Qed.

(** [logout] never fails and never talks to the registry.  Afterwards
    there is no credential file, so a second [logout] only reports that,
    and a session opened next is anonymous. *)
Theorem logout_then_anonymous (w : World) :
  exists w1,
    Command.logout w = (Ret tt, w1) /\
    auth_file w1 = None /\
    sent w1 = sent w /\
    Command.logout w1
    = (Ret tt, set_stdout (stdout w1 ++ [VStr "Already logged out."])%list w1) /\
    exists session,
      Command.create_session E w1 = (Ret session, w1) /\
      Http.hget "Authorization" (headers session) = None.
Proof.
  assert (Hanon : forall w0, auth_file w0 = None ->
            Command.logout w0
            = (Ret tt,
               set_stdout (stdout w0 ++ [VStr "Already logged out."])%list w0) /\
            exists session,
              Command.create_session E w0 = (Ret session, w0) /\
              Http.hget "Authorization" (headers session) = None).
  { intros w0 H0. split.
    - unfold Command.logout. rewrite H0. reflexivity.
    - unfold Command.create_session, bind. rewrite H0. simpl.
      eexists. split; reflexivity. }
  unfold Command.logout at 1.
  destruct (auth_file w) as [f|] eqn:Hf.
  - exists (set_auth_file None w). split; [reflexivity|].
    split; [reflexivity|]. split; [reflexivity|]. apply Hanon. reflexivity.
  - eexists. split; [reflexivity|]. split; [exact Hf|].
    split; [reflexivity|]. apply Hanon. exact Hf.
Qed.

End LoginLogout.

Lemma login_granted_witness :
  exists w',
    Command.login
      (Demo.env (Demo.always (mkResponse 200 (Some Demo.renewed))))
      (Demo.world None ["code"] ∅)
    = (Ret tt, w') /\
    sent w'
    = [token_request
         (Demo.env (Demo.always (mkResponse 200 (Some Demo.renewed))))
         (VStr "code")] /\
    auth_file w' = Some (Demo.file_of Demo.renewed) /\
    browser w' = [VFmt "%s/login" [VStr "https://pkg.quiltdata.com"]].
Proof.
  apply (login_granted
           (Demo.env (Demo.always (mkResponse 200 (Some Demo.renewed))))
           (Demo.world None ["code"] ∅) "code" []
           (mkResponse 200 (Some Demo.renewed))
           (JStr "r1") (JStr "a1") (JNum 4630)).
  - reflexivity.
  - reflexivity.
  - split; [reflexivity|].
    exists [("refresh_token", JStr "r1"); ("access_token", JStr "a1");
            ("expires_at", JNum 4630)].
    repeat split; try reflexivity. left. reflexivity.
Defined.

Lemma login_raise_keeps_file_witness :
  auth_file
    (snd (Command.login (Demo.env Demo.down)
            (Demo.world (Some (Demo.file_of Demo.stale)) ["code"] ∅)))
  = Some (Demo.file_of Demo.stale).
Proof.
  apply (login_raise_keeps_file (Demo.env Demo.down)
           (Demo.world (Some (Demo.file_of Demo.stale)) ["code"] ∅)
           (snd (Command.login (Demo.env Demo.down)
                   (Demo.world (Some (Demo.file_of Demo.stale)) ["code"] ∅)))
           (ConnectionError (VStr "connection refused"))).
  vm_compute. reflexivity.
Defined.

Lemma login_then_session_witness :
  exists w' session,
    Command.login
      (Demo.env (Demo.always (mkResponse 200 (Some Demo.renewed))))
      (Demo.world None ["code"] ∅)
    = (Ret tt, w') /\
    Command.create_session
      (Demo.env (Demo.always (mkResponse 200 (Some Demo.renewed)))) w'
    = (Ret session, w') /\
    Http.hget "Authorization" (headers session)
    = Some (VFmt "Bearer %s" [VJson (JStr "a1")]).
Proof.
  apply (login_then_session
           (Demo.env (Demo.always (mkResponse 200 (Some Demo.renewed))))
           (Demo.world None ["code"] ∅) "code" []
           (mkResponse 200 (Some Demo.renewed))
           (JStr "r1") (JStr "a1") 4630).
  - reflexivity.
  - reflexivity.
  - split; [reflexivity|].
    exists [("refresh_token", JStr "r1"); ("access_token", JStr "a1");
            ("expires_at", JNum 4630)].
    repeat split; try reflexivity. left. reflexivity.
  - vm_compute. reflexivity.
  - simpl. lia.
Defined.

(** ** Commands under [main] *)

Section Commands.
Variable E : Env.

Lemma create_session_undecodable w f :
  auth_file w = Some f -> json_loads E (content f) = None ->
  Command.create_session E w = (Raise ValueError, w).
Proof.
  intros Hf Hl. unfold Command.create_session, bind, lift.
  rewrite Hf, Hl. reflexivity.
Qed.

Lemma create_session_no_file w :
  auth_file w = None ->
  Command.create_session E w
  = (Ret (mkSession (anonymous_headers E) (Some Command._handle_response)), w).
Proof.
  intros Hf. unfold Command.create_session, bind. rewrite Hf. reflexivity.
Qed.

(** With a credential file that does not decode, every command that
    needs a session leaves [main] with an unhandled [ValueError] before
    anything is sent, while [logout] still returns 0 and removes the
    file. *)
Theorem main_undecodable_credentials (c : Command.command) (w : World)
        (f : File) :
  auth_file w = Some f ->
  json_loads E (content f) = None ->
  (Command.need_session c = true ->
     Command.main E c w = (Raise ValueError, w)) /\
  Command.main E Command.CmdLogout w
  = (Ret (Command.ReturnInt 0), set_auth_file None w).
Proof.
  intros Hf Hl. split.
  - intros Hn. unfold Command.main, Command.main_try, bind. rewrite Hn.
    rewrite (create_session_undecodable w f Hf Hl). reflexivity.
  - unfold Command.main, Command.main_try, bind, ret. simpl.
    unfold Command.logout. rewrite Hf. reflexivity.
Qed.

(** A malformed package identifier stops [build], [push], [install] and
    the three access commands at their first statement: they raise the
    package-syntax error in the world they started in. *)
Theorem commands_reject_malformed (session : Session) (package arg : string)
        (w : World) :
  _parse_package package = Raise parse_error ->
  Command.build E package arg w = (Raise parse_error, w) /\
  Command.push E session package w = (Raise parse_error, w) /\
  Command.install E session package w = (Raise parse_error, w) /\
  Command.access_list E session package w = (Raise parse_error, w) /\
  Command.access_add E session package arg w = (Raise parse_error, w) /\
  Command.access_remove E session package arg w = (Raise parse_error, w).
Proof.
  intros Hp.
  unfold Command.build, Command.push, Command.install, Command.access_list,
    Command.access_add, Command.access_remove, bind, lift.
  rewrite Hp. repeat split; reflexivity.
Qed.

(** Run from the command line without stored credentials, a command
    given a malformed package identifier makes [main] return 1 after
    printing the package-syntax message on stderr; nothing else
    changes and nothing is sent. *)
Theorem main_malformed_package (c : Command.command) (package : string)
        (w : World) :
  package_of c = Some package ->
  _parse_package package = Raise parse_error ->
  auth_file w = None ->
  h5py_installed E = true ->
  Command.main E c w
  = (Ret (Command.ReturnInt 1),
     set_stderr
       (stderr w ++ [VStr "Specify package as owner/package_name."])%list w).
Proof.
  intros Hc Hp Hf Hh.
  unfold Command.main, Command.main_try, bind, ret.
  destruct c; simpl in Hc; try discriminate; injection Hc as ->; simpl;
    try rewrite (create_session_no_file w Hf);
    unfold Command.func, Command.build, Command.push, Command.install,
      Command.access_list, Command.access_add, Command.access_remove,
      Command.inspect, bind, lift, ret, raise;
    try rewrite Hh; rewrite Hp; reflexivity.
Qed.

End Commands.

Lemma main_undecodable_credentials_witness :
  Command.main (Demo.env Demo.down) (Command.CmdPush "acme/widget")
    (Demo.world (Some (mkFile "{" 384)) [] ∅)
  = (Raise ValueError, Demo.world (Some (mkFile "{" 384)) [] ∅) /\
  Command.main (Demo.env Demo.down) Command.CmdLogout
    (Demo.world (Some (mkFile "{" 384)) [] ∅)
  = (Ret (Command.ReturnInt 0), Demo.world None [] ∅).
Proof.
  destruct (main_undecodable_credentials (Demo.env Demo.down)
              (Command.CmdPush "acme/widget")
              (Demo.world (Some (mkFile "{" 384)) [] ∅)
              (mkFile "{" 384) eq_refl)
    as [Hpush Hlogout].
  - vm_compute. reflexivity.
  - split; [apply Hpush; reflexivity | exact Hlogout].
Defined.

Lemma commands_reject_malformed_witness :
  Command.push (Demo.env Demo.down) (mkSession [] None) "acme"
    (Demo.world None [] ∅)
  = (Raise parse_error, Demo.world None [] ∅).
Proof.
  apply (proj1 (proj2 (commands_reject_malformed (Demo.env Demo.down)
                         (mkSession [] None) "acme" ""
                         (Demo.world None [] ∅) eq_refl))).
Defined.

Lemma main_malformed_package_witness :
  Command.main (Demo.env Demo.down) (Command.CmdInstall "acme//widget")
    (Demo.world None [] ∅)
  = (Ret (Command.ReturnInt 1),
     set_stderr [VStr "Specify package as owner/package_name."]
                (Demo.world None [] ∅)).
Proof.
  apply (main_malformed_package (Demo.env Demo.down)
           (Command.CmdInstall "acme//widget") "acme//widget"
           (Demo.world None [] ∅));
    reflexivity.
Defined.

(** ** Access lists *)

Section Access.
Variable E : Env.

Lemma all_strings_of_names names :
  Command.all_strings (map JStr names) = Ret names.
Proof.
  induction names as [|n names IH]; simpl; [reflexivity|].
  rewrite IH. reflexivity.
Qed.

(** The exchange behind the three access commands: one request with the
    session's headers, then the response hook. *)
Lemma session_request_run session m url data w :
  response_hook session = Some Command._handle_response ->
  Command.session_request E session m url data w =
  (match server E (sent w) (mkRequest m url data (headers session)) with
   | Answer r =>
       match Command._handle_response r with
       | Ret _ => Ret r
       | Raise e => Raise e
       end
   | Unreachable d => Raise (ConnectionError d)
   end,
   set_sent (sent w ++ [mkRequest m url data (headers session)])%list w).
Proof.
  intros Hh. unfold Command.session_request, Command.request, bind, lift, ret.
  rewrite Hh.
  destruct (server E (sent w) _) as [r|d]; [|reflexivity].
  destruct (Command._handle_response r); reflexivity.
Qed.

(** When the registry answers the lookup with a status the hook lets
    through and an object whose [users] is a list of names,
    [access_list] prints the names, one per line, as a single [print],
    after exactly one request. *)
Theorem access_list_prints (session : Session) (package owner pkg : string)
        (w : World) (r : Response) (fields : list (string * json))
        (names : list string) :
  _parse_package package = Ret (owner, pkg) ->
  response_hook session = Some Command._handle_response ->
  server E (sent w) (access_list_request E session owner pkg) = Answer r ->
  Command._handle_response r = Ret tt ->
  body r = Some (JObj fields) ->
  Py.assoc "users" fields = Some (JArr (map JStr names)) ->
  Command.access_list E session package w
  = (Ret tt,
     set_stdout (stdout w ++ [VStr (PyStr.join "010" names)])%list
       (set_sent (sent w ++ [access_list_request E session owner pkg])%list w)).
Proof.
  intros Hp Hh Hr Hok Hb Hu.
  unfold Command.access_list. unfold bind at 1. unfold lift at 1. rewrite Hp.
  cbv beta iota. unfold bind at 1.
  rewrite (session_request_run session _ _ _ w Hh).
  fold (access_list_request E session owner pkg). rewrite Hr, Hok.
  unfold bind, lift, Http.json_of, print. rewrite Hb. simpl. rewrite Hu.
  simpl. rewrite all_strings_of_names. reflexivity.
Qed.


(** [access_add] and [access_remove] send exactly one request each,
    whatever the outcome: the same URL and headers, [PUT] for adding and
    [DELETE] for removing, and no body. *)
Theorem access_change_one_request (session : Session)
        (package owner pkg user : string) (w : World) :
  _parse_package package = Ret (owner, pkg) ->
  sent (snd (Command.access_add E session package user w))
  = (sent w ++ [access_user_request E session PUT owner pkg user])%list /\
  sent (snd (Command.access_remove E session package user w))
  = (sent w ++ [access_user_request E session DELETE owner pkg user])%list.
Proof.
  intros Hp.
  unfold Command.access_add, Command.access_remove, Command.session_request,
    Command.request, bind, lift, ret.
  rewrite Hp. simpl.
  fold (access_user_request E session PUT owner pkg user).
  fold (access_user_request E session DELETE owner pkg user).
  split.
  - destruct (server E (sent w) (access_user_request E session PUT owner pkg user))
      as [r|d]; [|reflexivity].
    destruct (response_hook session) as [hook|]; [|reflexivity].
    destruct (hook r); reflexivity.
  - destruct (server E (sent w)
                (access_user_request E session DELETE owner pkg user))
      as [r|d]; [|reflexivity].
    destruct (response_hook session) as [hook|]; [|reflexivity].
    destruct (hook r); reflexivity.
Qed.

End Access.

Lemma access_list_prints_witness :
  let E := Demo.env (Demo.always
             (mkResponse 200
                (Some (JObj [("users", JArr [JStr "alice"; JStr "bob"])])))) in
  let session := mkSession [] (Some Command._handle_response) in
  Command.access_list E session "acme/widget" (Demo.world None [] ∅)
  = (Ret tt,
     set_stdout [VStr (PyStr.join "010" ["alice"; "bob"])]
       (set_sent [access_list_request E session "acme" "widget"]
                 (Demo.world None [] ∅))).
Proof.
  apply (access_list_prints
           (Demo.env (Demo.always
              (mkResponse 200
                 (Some (JObj [("users", JArr [JStr "alice"; JStr "bob"])])))))
           (mkSession [] (Some Command._handle_response))
           "acme/widget" "acme" "widget" (Demo.world None [] ∅)
           (mkResponse 200
              (Some (JObj [("users", JArr [JStr "alice"; JStr "bob"])])))
           [("users", JArr [JStr "alice"; JStr "bob"])]
           ["alice"; "bob"]);
    reflexivity.
Defined.


Lemma access_change_one_request_witness :
  let E := Demo.env (Demo.always (mkResponse 404 None)) in
  let session := mkSession [] (Some Command._handle_response) in
  sent (snd (Command.access_add E session "acme/widget" "bob"
               (Demo.world None [] ∅)))
  = [access_user_request E session PUT "acme" "widget" "bob"] /\
  sent (snd (Command.access_remove E session "acme/widget" "bob"
               (Demo.world None [] ∅)))
  = [access_user_request E session DELETE "acme" "widget" "bob"].
Proof.
  apply (access_change_one_request
           (Demo.env (Demo.always (mkResponse 404 None)))
           (mkSession [] (Some Command._handle_response))
           "acme/widget" "acme" "widget" "bob" (Demo.world None [] ∅)).
  reflexivity.
Defined.

(** ** Build and listing *)

Section BuildAndLs.
Variable E : Env.

(** [quilt build] opens no session.  When [build_package] returns,
    [main] prints the success line and returns 0; when it raises
    [BuildException], [main] returns 1 with the failure on stderr and no
    success line. *)
Theorem main_build (package path owner pkg : string) (w : World) :
  _parse_package package = Ret (owner, pkg) ->
  (forall w1,
     build_package E owner pkg path w = (Ret tt, w1) ->
     Command.main E (Command.CmdBuild package path) w
     = (Ret (Command.ReturnInt 0),
        set_stdout
          (stdout w1 ++ [VFmt "Built %s/%s successfully."
                              [VStr owner; VStr pkg]])%list w1)) /\
  (forall reason w1,
     build_package E owner pkg path w = (Raise (BuildException reason), w1) ->
     Command.main E (Command.CmdBuild package path) w
     = (Ret (Command.ReturnInt 1),
        set_stderr
          (stderr w1 ++ [VFmt "Failed to build the package: %s" [reason]])%list
          w1)).
Proof.
  intros Hp.
  unfold Command.main, Command.main_try, Command.need_session, Command.func,
    Command.build, except_BuildException, print, print_err, bind, lift, ret,
    raise.
  rewrite Hp. split.
  - intros w1 Hb. rewrite Hb. reflexivity.
  - intros reason w1 Hb. rewrite Hb. reflexivity.
Qed.

Lemma set_stdout_same w : set_stdout (stdout w ++ [])%list w = w.
Proof. destruct w. unfold set_stdout. simpl. rewrite app_nil_r. reflexivity. Qed.

Lemma set_stdout_twice l1 l2 w :
  set_stdout (stdout (set_stdout (stdout w ++ l1)%list w) ++ l2)%list
    (set_stdout (stdout w ++ l1)%list w)
  = set_stdout (stdout w ++ l1 ++ l2)%list w.
Proof. unfold set_stdout. simpl. rewrite app_assoc. reflexivity. Qed.

(** The inner loop of [ls] over the packages from index [i] on, when
    the directory holds [total] packages. *)
Lemma ls_inner_loop packages :
  forall i total w,
    total = (i + length packages)%nat ->
    for_each (Command.enumerate_from i packages)
      (fun entry =>
         let '(idx, (owner, pkg)) := entry in
         let prefix :=
           if (Z.of_nat idx =? Z.of_nat total - 1)%Z
           then "└── " else "├── " in
         print (VFmt "%s%s/%s" [VStr prefix; VStr owner; VStr pkg])) w
    = (Ret tt, set_stdout (stdout w ++ package_lines packages)%list w).
Proof.
  induction packages as [|[owner pkg] rest IH]; intros i total w Ht.
  - simpl. unfold ret. rewrite set_stdout_same. reflexivity.
  - simpl for_each. unfold bind. unfold print at 1.
    rewrite (IH (S i) total _) by (simpl in Ht; lia).
    rewrite set_stdout_twice.
    destruct rest as [|next rest].
    + assert (Hlast : (Z.of_nat i =? Z.of_nat total - 1)%Z = true)
        by (apply Z.eqb_eq; simpl in Ht; lia).
      rewrite Hlast. reflexivity.
    + assert (Hmid : (Z.of_nat i =? Z.of_nat total - 1)%Z = false)
        by (apply Z.eqb_neq; simpl in Ht; lia).
      rewrite Hmid. destruct next. reflexivity.
Qed.

(** When the store's two listing functions only report, [ls] prints,
    for each package directory in turn, the directory and then its
    packages, every package but the last of a directory as a branch and
    the last as the end of the branch; an empty directory list prints
    nothing. *)
Theorem ls_prints (dirs : list string)
        (packages_in : string -> list (string * string)) (w : World) :
  (forall w0, find_package_dirs E w0 = (Ret dirs, w0)) ->
  (forall pkg_dir w0, ls_packages E pkg_dir w0 = (Ret (packages_in pkg_dir), w0)) ->
  Command.ls E w
  = (Ret tt,
     set_stdout
       (stdout w ++
        flat_map (fun pkg_dir =>
                    VFmt "%s" [VStr pkg_dir]
                    :: package_lines (packages_in pkg_dir)) dirs)%list w).
Proof.
  intros Hdirs Hpk. unfold Command.ls. unfold bind at 1. rewrite Hdirs.
  clear Hdirs. revert w.
  induction dirs as [|d dirs IH]; intros w.
  - simpl. unfold ret. rewrite set_stdout_same. reflexivity.
  - simpl for_each. unfold bind at 1. unfold bind at 1. unfold print at 1.
    unfold bind at 1. rewrite Hpk.
    rewrite (ls_inner_loop (packages_in d) 0 (length (packages_in d)) _ eq_refl).
    rewrite set_stdout_twice, IH.
    unfold set_stdout. simpl. rewrite <- !app_assoc. reflexivity.
Qed.

End BuildAndLs.

Lemma main_build_witness :
  Command.main (Demo.env Demo.down) (Command.CmdBuild "acme/widget" "build.yml")
    (Demo.world None [] ∅)
  = (Ret (Command.ReturnInt 0),
     set_stdout [VFmt "Built %s/%s successfully." [VStr "acme"; VStr "widget"]]
                (Demo.world None [] ∅)) /\
  Command.main Demo.listing_env (Command.CmdBuild "acme/widget" "build.yml")
    (Demo.world None [] ∅)
  = (Ret (Command.ReturnInt 1),
     set_stderr [VFmt "Failed to build the package: %s" [VStr "bad manifest"]]
                (Demo.world None [] ∅)).
Proof.
  split.
  - apply (proj1 (main_build (Demo.env Demo.down) "acme/widget" "build.yml"
                    "acme" "widget" (Demo.world None [] ∅) eq_refl)
             (Demo.world None [] ∅)).
    reflexivity.
  - apply (proj2 (main_build Demo.listing_env "acme/widget" "build.yml"
                    "acme" "widget" (Demo.world None [] ∅) eq_refl)
             (VStr "bad manifest") (Demo.world None [] ∅)).
    reflexivity.
Defined.

Lemma ls_prints_witness :
  Command.ls Demo.listing_env (Demo.world None [] ∅)
  = (Ret tt,
     set_stdout
       [VFmt "%s" [VStr "quilt_packages"];
        VFmt "%s%s/%s" [VStr "├── "; VStr "acme"; VStr "gadget"];
        VFmt "%s%s/%s" [VStr "└── "; VStr "acme"; VStr "widget"]]
       (Demo.world None [] ∅)).
Proof.
  apply (ls_prints Demo.listing_env ["quilt_packages"]
           (fun _ => [("acme", "gadget"); ("acme", "widget")])
           (Demo.world None [] ∅)).
  - intros w0. reflexivity.
  - intros pkg_dir w0. reflexivity.
Defined.

(** ** The progress reader *)

Lemma substring_length (s : string) :
  forall p n, (n <= String.length s - p)%nat ->
              String.length (String.substring p n s) = n.
Proof.
  induction s as [|c s IH]; intros p n Hn.
  - simpl in Hn. assert (n = 0%nat) by lia. subst n.
    destruct p; reflexivity.
  - destruct p as [|p].
    + destruct n as [|n]; [reflexivity|].
      simpl. f_equal. apply IH. simpl in Hn. lia.
    + simpl. apply IH. simpl in Hn. lia.
Qed.

Lemma substring_whole (s : string) :
  String.substring 0 (String.length s) s = s.
Proof.
  induction s as [|c s IH]; [reflexivity|]. simpl. rewrite IH. reflexivity.
Qed.

Section Reader.

(** The number of bytes [read(size)] hands out when [left] bytes remain:
    all of them for a negative [size], at most [size] otherwise. *)
Let granted (size : Z) (left : nat) : nat :=
  if (size <? 0)%Z then left else Nat.min (Z.to_nat size) left.

Lemma read_run self size io f :
  Util.open_files io !! Util._fd self = Some f ->
  Util.read self size io =
  let n := granted size (String.length (Util.data f) - Util.pos f) in
  (Ret (String.substring (Util.pos f) n (Util.data f)),
   Util.mkIO (Util.disk io) (Util.next_id io)
     (<[Util._fd self := Util.mkOpenFile (Util.data f) (Util.pos f + n)]>
        (Util.open_files io))
     (alter (fun b => Util.mkBar (Util.total b) (Util.progressed b + n))
            (Util._progress self) (Util.open_bars io))).
Proof.
  intros Hf.
  unfold Util.read, Util.fd_read, Util.on_file, Util.tqdm_update,
    Util.set_pos, bind, ret, granted.
  rewrite Hf. cbv zeta. simpl.
  rewrite substring_length; [reflexivity|].
  destruct (size <? 0)%Z; lia.
Qed.


Lemma init_rewinds_file_object_run (fd : nat) (f : Util.OpenFile)
      (io : Util.IO) :
  Util.open_files io !! fd = Some f ->
  Util.__init__ (inr fd) io
  = (Ret (Util.mkFileWithReadProgress fd false (Util.next_id io)),
     Util.mkIO (Util.disk io) (S (Util.next_id io))
       (<[fd := Util.mkOpenFile (Util.data f) 0]> (Util.open_files io))
       (<[Util.next_id io := Util.mkBar (String.length (Util.data f)) 0]>
          (Util.open_bars io))).
Proof.
  intros Hf.
  unfold Util.__init__, Util.fd_seek, Util.fd_tell, Util.tqdm, Util.on_file,
    Util.set_pos, bind, ret.
  rewrite Hf. simpl.
  assert (H0 : (Z.of_nat (String.length (Util.data f)) + 0 <? 0)%Z = false)
    by (apply Z.ltb_ge; lia).
  rewrite H0. simpl. rewrite lookup_insert_eq. simpl.
  rewrite lookup_insert_eq. simpl.
  rewrite !insert_insert_eq.
  replace (Z.to_nat (Z.of_nat (String.length (Util.data f)) + 0))
    with (String.length (Util.data f)) by lia.
  reflexivity.
Qed.

(** A reader built over an already open file object does not own it,
    rewinds it to the start wherever it stood, and sizes its bar to the
    whole file. *)
Theorem init_rewinds_file_object (fd : nat) (f : Util.OpenFile) (io : Util.IO) :
  Util.open_files io !! fd = Some f ->
  Util.__init__ (inr fd) io
  = (Ret (Util.mkFileWithReadProgress fd false (Util.next_id io)),
     Util.mkIO (Util.disk io) (S (Util.next_id io))
       (<[fd := Util.mkOpenFile (Util.data f) 0]> (Util.open_files io))
       (<[Util.next_id io := Util.mkBar (String.length (Util.data f)) 0]>
          (Util.open_bars io))).
Proof. apply init_rewinds_file_object_run. Qed.

(** Given a path that does not exist, the constructor raises [IOError]
    having opened nothing, and the block of a [with] statement over it
    never runs. *)
Theorem reader_missing_path (A : Type) (path : string)
        (body : Util.FileWithReadProgress -> St Util.IO A) (io : Util.IO) :
  Util.disk io !! path = None ->
  Util.__init__ (inl path) io = (Raise IOError, io) /\
  Util.with_FileWithReadProgress (inl path) body io = (Raise IOError, io).
Proof.
  intros Hd.
  unfold Util.with_FileWithReadProgress, Util.__init__, Util.open_rb, bind.
  rewrite Hd. split; reflexivity.
Qed.

(** After [close()] a reader that owns its file cannot be read: [read]
    raises [ValueError] and the bar is not touched.  Closing again
    changes nothing. *)
Theorem read_after_close (self : Util.FileWithReadProgress) (size : Z)
        (io : Util.IO) :
  Util._need_to_close self = true ->
  exists io',
    Util.close self io = (Ret tt, io') /\
    Util.read self size io' = (Raise ValueError, io') /\
    Util.close self io' = (Ret tt, io').
Proof.
  intros Hn.
  unfold Util.close, Util.tqdm_close, Util.fd_close, bind, ret. rewrite Hn.
  eexists. split; [reflexivity|]. split.
  - unfold Util.read, Util.fd_read, Util.on_file, bind. simpl.
    rewrite lookup_delete_eq. reflexivity.
  - simpl. rewrite !delete_delete_eq. reflexivity.
Qed.

(** Leaving a [with] block over a borrowed file object closes the bar
    only: the file objects open after the block are exactly those the
    block left open. *)
Theorem with_borrowed_keeps_file (A : Type) (fd : nat) (f : Util.OpenFile)
        (body : Util.FileWithReadProgress -> St Util.IO A) (io : Util.IO) :
  Util.open_files io !! fd = Some f ->
  exists self io1,
    Util.__init__ (inr fd) io = (Ret self, io1) /\
    Util._need_to_close self = false /\
    Util.open_files
      (snd (Util.with_FileWithReadProgress (inr fd) body io))
    = Util.open_files (snd (body self io1)) /\
    Util.bar_is_open (Util._progress self)
      (snd (Util.with_FileWithReadProgress (inr fd) body io)) = false.
Proof.
  intros Hf.
  pose proof (init_rewinds_file_object_run fd f io Hf) as Hinit.
  eexists _, _. split; [exact Hinit|]. split; [reflexivity|].
  unfold Util.with_FileWithReadProgress, Util.__enter__, Util.__exit__,
    Util.close, Util.tqdm_close, finally, bind, ret.
  rewrite Hinit. cbv beta iota.
  destruct (body _ _) as [out iob]. simpl.
  split; [reflexivity|].
  unfold Util.bar_is_open. simpl. rewrite lookup_delete_eq. reflexivity.
Qed.

End Reader.

Section ReaderRuns.

Lemma init_from_path_run path bytes io :
  Util.disk io !! path = Some bytes ->
  Util.__init__ (inl path) io
  = (Ret (Util.mkFileWithReadProgress
            (Util.next_id io) true (S (Util.next_id io))),
     Util.mkIO (Util.disk io) (S (S (Util.next_id io)))
       (<[Util.next_id io := Util.mkOpenFile bytes 0]> (Util.open_files io))
       (<[S (Util.next_id io) := Util.mkBar (String.length bytes) 0]>
          (Util.open_bars io))).
Proof.
  intros Hd.
  unfold Util.__init__, Util.open_rb, Util.fd_seek, Util.fd_tell, Util.tqdm,
    Util.on_file, Util.set_pos, bind, ret.
  rewrite Hd. simpl. rewrite lookup_insert_eq. simpl.
  assert (H0 : (Z.of_nat (String.length bytes) + 0 <? 0)%Z = false)
    by (apply Z.ltb_ge; lia).
  rewrite H0. simpl. rewrite lookup_insert_eq. simpl.
  rewrite lookup_insert_eq. simpl. rewrite !insert_insert_eq.
  replace (Z.to_nat (Z.of_nat (String.length bytes) + 0))
    with (String.length bytes) by lia.
  reflexivity.
Qed.

(** The bar counts bytes handed out, not the position: reading a file
    to its end, seeking back to the start and reading it again returns
    the whole file the second time too and leaves the bar at twice its
    total. *)
Theorem reread_overruns_bar (path bytes : string) (io : Util.IO) :
  Util.disk io !! path = Some bytes ->
  exists self io1 io2,
    Util.__init__ (inl path) io = (Ret self, io1) /\
    (Util.read self (-1) ;; Util.seek self 0 0 ;; Util.read self (-1)) io1
    = (Ret bytes, io2) /\
    Util.open_bars io2 !! Util._progress self
    = Some (Util.mkBar (String.length bytes) (2 * String.length bytes)).
Proof.
  intros Hd. rewrite (init_from_path_run path bytes io Hd).
  set (self := Util.mkFileWithReadProgress _ true _).
  set (io1 := Util.mkIO _ _ _ _).
  exists self, io1.
  unfold bind at 1.
  rewrite (read_run self (-1) io1 (Util.mkOpenFile bytes 0))
    by (simpl; apply lookup_insert_eq).
  cbv zeta. simpl Util.data. simpl Util.pos. cbv beta iota.
  unfold bind at 1. unfold Util.seek, Util.fd_seek, Util.on_file, Util.set_pos.
  simpl Util.open_files. simpl Util._fd. rewrite lookup_insert_eq.
  simpl. rewrite insert_insert_eq.
  match goal with
  | |- context [Util.read self (-1) ?io] =>
      rewrite (read_run self (-1) io (Util.mkOpenFile bytes 0))
        by (simpl; apply lookup_insert_eq)
  end.
  cbv zeta. simpl Util.data. simpl Util.pos. simpl.
  rewrite Nat.sub_0_r, substring_whole.
  eexists. split; [reflexivity|]. split; [reflexivity|].
  simpl. rewrite !lookup_alter_eq, lookup_insert_eq. simpl.
  f_equal. f_equal. lia.
Qed.

End ReaderRuns.


Lemma init_rewinds_file_object_witness :
  Util.__init__ (inr 0%nat)
    (Util.mkIO ∅ 1 {[ 0%nat := Util.mkOpenFile "0123456789" 7 ]} ∅)
  = (Ret (Util.mkFileWithReadProgress 0 false 1),
     Util.mkIO ∅ 2
       (<[0%nat := Util.mkOpenFile "0123456789" 0]>
          {[ 0%nat := Util.mkOpenFile "0123456789" 7 ]})
       (<[1%nat := Util.mkBar 10 0]> ∅)).
Proof.
  assert (Hopen : Util.open_files
                    (Util.mkIO ∅ 1
                       {[ 0%nat := Util.mkOpenFile "0123456789" 7 ]} ∅)
                  !! 0%nat
                  = Some (Util.mkOpenFile "0123456789" 7))
    by (vm_compute; reflexivity).
  exact (init_rewinds_file_object 0
           (Util.mkOpenFile "0123456789" 7)
           (Util.mkIO ∅ 1 {[ 0%nat := Util.mkOpenFile "0123456789" 7 ]} ∅)
           Hopen).
Defined.

Lemma reader_missing_path_witness :
  Util.with_FileWithReadProgress (inl "absent.h5")
    (fun f => Util.read f (-1)) (Util.mkIO ∅ 0 ∅ ∅)
  = (Raise IOError, Util.mkIO ∅ 0 ∅ ∅).
Proof.
  apply (reader_missing_path string "absent.h5"
           (fun f => Util.read f (-1)) (Util.mkIO ∅ 0 ∅ ∅)).
  vm_compute. reflexivity.
Defined.

Lemma read_after_close_witness :
  exists io',
    Util.close (Util.mkFileWithReadProgress 0 true 1)
      (Util.mkIO ∅ 2 {[ 0%nat := Util.mkOpenFile "abc" 0 ]}
                 {[ 1%nat := Util.mkBar 3 0 ]})
    = (Ret tt, io') /\
    Util.read (Util.mkFileWithReadProgress 0 true 1) (-1) io'
    = (Raise ValueError, io') /\
    Util.close (Util.mkFileWithReadProgress 0 true 1) io' = (Ret tt, io').
Proof.
  apply (read_after_close (Util.mkFileWithReadProgress 0 true 1) (-1)
           (Util.mkIO ∅ 2 {[ 0%nat := Util.mkOpenFile "abc" 0 ]}
                      {[ 1%nat := Util.mkBar 3 0 ]})).
  reflexivity.
Defined.

Lemma with_borrowed_keeps_file_witness :
  exists self io1,
    Util.__init__ (inr 0%nat)
      (Util.mkIO ∅ 1 {[ 0%nat := Util.mkOpenFile "abc" 0 ]} ∅)
    = (Ret self, io1) /\
    Util._need_to_close self = false /\
    Util.open_files
      (snd (Util.with_FileWithReadProgress (inr 0%nat)
              (fun f => Util.read f (-1))
              (Util.mkIO ∅ 1 {[ 0%nat := Util.mkOpenFile "abc" 0 ]} ∅)))
    = Util.open_files (snd (Util.read self (-1) io1)) /\
    Util.bar_is_open (Util._progress self)
      (snd (Util.with_FileWithReadProgress (inr 0%nat)
              (fun f => Util.read f (-1))
              (Util.mkIO ∅ 1 {[ 0%nat := Util.mkOpenFile "abc" 0 ]} ∅)))
    = false.
Proof.
  apply (with_borrowed_keeps_file string 0 (Util.mkOpenFile "abc" 0)
           (fun f => Util.read f (-1))
           (Util.mkIO ∅ 1 {[ 0%nat := Util.mkOpenFile "abc" 0 ]} ∅)).
  vm_compute. reflexivity.
Defined.

Lemma reread_overruns_bar_witness :
  exists self io1 io2,
    Util.__init__ (inl "artifact.h5")
      (Util.mkIO {[ "artifact.h5" := "0123456789" ]} 0 ∅ ∅)
    = (Ret self, io1) /\
    (Util.read self (-1) ;; Util.seek self 0 0 ;; Util.read self (-1)) io1
    = (Ret "0123456789", io2) /\
    Util.open_bars io2 !! Util._progress self = Some (Util.mkBar 10 20).
Proof.
  apply (reread_overruns_bar "artifact.h5" "0123456789"
           (Util.mkIO {[ "artifact.h5" := "0123456789" ]} 0 ∅ ∅)).
  vm_compute. reflexivity.
Defined.

(** ** The comparator helper *)


(** ** What every session has in common *)

Section SessionShape.
Variable E : Env.


(** Every session [create_session] returns has the response hook and
    the JSON [Content-Type] and [Accept] headers, and it carries an
    [Authorization] header exactly when a credential file exists. *)
Theorem create_session_shape (w w' : World) (session : Session) :
  Command.create_session E w = (Ret session, w') ->
  response_hook session = Some Command._handle_response /\
  Http.hget "Content-Type" (headers session)
  = Some (VStr "application/json") /\
  Http.hget "Accept" (headers session) = Some (VStr "application/json") /\
  (auth_file w = None <->
   Http.hget "Authorization" (headers session) = None).
Proof.
  unfold Command.create_session, Command._save_auth, except_CommandException,
    bind, lift, ret, raise, time_time.
  destruct (auth_file w) as [f|] eqn:Hf.
  - assert (Hshape : forall token,
      let s := mkSession
                 (Http.hset "Authorization" (VFmt "Bearer %s" [VJson token])
                    (anonymous_headers E))
                 (Some Command._handle_response) in
      response_hook s = Some Command._handle_response /\
      Http.hget "Content-Type" (headers s) = Some (VStr "application/json") /\
      Http.hget "Accept" (headers s) = Some (VStr "application/json") /\
      (Some f = None <-> Http.hget "Authorization" (headers s) = None)).
    { intros token. repeat split; try reflexivity; discriminate. }
    destruct (json_loads E (content f)) as [auth|]; [|discriminate].
    destruct (Py.getitem auth "expires_at") as [x|]; [|discriminate].
    destruct (Py.as_number x) as [n|]; [|discriminate].
    destruct (n <? clock w + 60)%Z.
    + destruct (Py.getitem auth "refresh_token") as [rt|e1];
        [|destruct e1; discriminate].
      destruct (Command._update_auth E (VJson rt) w) as [[new|e0] w1];
        [|destruct e0; discriminate].
      destruct (Py.getitem new "access_token") as [token|]; [|discriminate].
      intros H. inversion H. subst. apply Hshape.
    + destruct (Py.getitem auth "access_token") as [token|]; [|discriminate].
      intros H. inversion H. subst. apply Hshape.
  - intros H. inversion H. subst.
    repeat split; reflexivity.
Qed.

End SessionShape.


Lemma create_session_shape_witness :
  let session :=
    mkSession (anonymous_headers (Demo.env Demo.down)
                 ++ [("Authorization", VFmt "Bearer %s" [VJson (JStr "a0")])])%list
              (Some Command._handle_response) in
  response_hook session = Some Command._handle_response /\
  Http.hget "Content-Type" (headers session)
  = Some (VStr "application/json") /\
  Http.hget "Accept" (headers session) = Some (VStr "application/json") /\
  (Some (Demo.file_of Demo.fresh) = None <->
   Http.hget "Authorization" (headers session) = None).
Proof.
  apply (create_session_shape (Demo.env Demo.down)
           (Demo.world (Some (Demo.file_of Demo.fresh)) [] ∅)
           (Demo.world (Some (Demo.file_of Demo.fresh)) [] ∅)).
  vm_compute. reflexivity.
Defined.

(** ** Downloading a package *)

Section InstallDownload.
Variable E : Env.

(** Once [install] goes to the registry it asks for the "latest" tag,
    then for the package under the hash the tag answer named, and hands
    the store the [url] and the [hash] of the package answer as they
    are; the hash is not compared with the tag's.  A [StoreException]
    from the store comes out as the [CommandException] "Failed to
    install the package"; any other outcome of the store is the outcome
    of [install]. *)
Theorem install_download_flow (session : Session) (owner pkg : string)
        (store : PackageStore) (w : World) (r1 r2 : Response)
        (tag dataset : list (string * json)) (pkghash url hash : json) :
  response_hook session = Some Command._handle_response ->
  ps_owner store = owner -> ps_pkg store = pkg ->
  server E (sent w) (tag_request E session owner pkg) = Answer r1 ->
  Command._handle_response r1 = Ret tt ->
  body r1 = Some (JObj tag) -> Py.assoc "hash" tag = Some pkghash ->
  server E (sent w ++ [tag_request E session owner pkg])%list
         (package_request E session owner pkg pkghash) = Answer r2 ->
  Command._handle_response r2 = Ret tt ->
  body r2 = Some (JObj dataset) ->
  Py.assoc "url" dataset = Some url -> Py.assoc "hash" dataset = Some hash ->
  let w2 := set_sent (sent w ++ [tag_request E session owner pkg;
                                 package_request E session owner pkg pkghash])%list
                     w in
  Command.install_download E session owner pkg store w
  = match store_install E owner pkg url hash w2 with
    | (Raise (StoreException reason), w3) =>
        (Raise (CommandException
                  (VFmt "Failed to install the package: %s" [reason])), w3)
    | other => other
    end.
Proof.
  intros Hh Ho Hk Hr1 Hok1 Hb1 Ht Hr2 Hok2 Hb2 Hu Hd w2.
  unfold Command.install_download.
  unfold bind at 1. rewrite (session_request_run E session _ _ _ w Hh).
  fold (tag_request E session owner pkg). rewrite Hr1, Hok1.
  unfold bind at 1. unfold lift at 1. unfold Http.json_of. rewrite Hb1.
  unfold bind at 1. unfold lift at 1. unfold Py.getitem at 1. rewrite Ht.
  unfold bind at 1. rewrite (session_request_run E session _ _ _ _ Hh).
  fold (package_request E session owner pkg pkghash).
  simpl sent. rewrite Hr2, Hok2.
  unfold bind at 1. unfold lift at 1. rewrite Hb2.
  unfold except_StoreException, bind, lift, Py.getitem, Store.install, raise.
  rewrite Hu, Hd, Ho, Hk.
  replace (set_sent _ (set_sent _ w)) with w2
    by (unfold w2, set_sent; simpl; rewrite <- app_assoc; reflexivity).
  destruct (store_install E owner pkg url hash w2) as [[u|e] w3];
    [reflexivity|]. destruct e; reflexivity.
Qed.

End InstallDownload.

Lemma install_download_flow_witness :
  let E := Demo.env (Demo.always
             (mkResponse 200
                (Some (JObj [("hash", JStr "abc123");
                             ("url", JStr "https://cdn/abc123")])))) in
  let session := mkSession [] (Some Command._handle_response) in
  Command.install_download E session "acme" "widget"
    (mkPackageStore "acme" "widget" ModeW) (Demo.world None [] ∅)
  = (Ret tt,
     set_sent [tag_request E session "acme" "widget";
               package_request E session "acme" "widget" (JStr "abc123")]
              (Demo.world None [] ∅)).
Proof.
  apply (install_download_flow
           (Demo.env (Demo.always
              (mkResponse 200
                 (Some (JObj [("hash", JStr "abc123");
                              ("url", JStr "https://cdn/abc123")])))))
           (mkSession [] (Some Command._handle_response))
           "acme" "widget" (mkPackageStore "acme" "widget" ModeW)
           (Demo.world None [] ∅)
           (mkResponse 200
              (Some (JObj [("hash", JStr "abc123");
                           ("url", JStr "https://cdn/abc123")])))
           (mkResponse 200
              (Some (JObj [("hash", JStr "abc123");
                           ("url", JStr "https://cdn/abc123")])))
           [("hash", JStr "abc123"); ("url", JStr "https://cdn/abc123")]
           [("hash", JStr "abc123"); ("url", JStr "https://cdn/abc123")]
           (JStr "abc123") (JStr "https://cdn/abc123") (JStr "abc123"));
    reflexivity.
Defined.
